(** * ai-commit.nvim: the staged-diff report generator ([lua/commit.py])

    A shallow embedding of [lua/commit.py] and the properties of its
    specification that concern the status mapping, the pattern filter, the
    diff truncation heuristic and the per-file report loop.

    Conventions of the embedding.
    - A Python [str] is a [string]; every [ascii] stands for one character,
      so [String.length] is Python's [len].
    - A Python [int] is a [Z]; [len(...)] is [Z.of_nat (length ...)].
    - Everything the program asks of its environment (the [git] subprocess,
      the file system, [pathlib]) is a field of the record [World].
    - Subprocess calls, file-system probes and prints are recorded, in
      program order, in a trace of [event]s carried by the monad [Eff]. *)

From Stdlib Require Import ZArith List String Ascii Lia Permutation.
From stdpp Require Import base gmap sets list strings pretty sorting.

Open Scope string_scope.
Open Scope list_scope.

(** ** Python string primitives *)

Module PyStr.

(** [s.startswith(prefix)] *)
Definition startswith (s prefix : string) : bool := String.prefix prefix s.

(** [c in s] for a one-character [c] *)
Fixpoint contains (c : ascii) (s : string) : bool :=
  match s with
  | EmptyString => false
  | String d s' => if Ascii.eqb d c then true else contains c s'
  end.

(** [c * n] for a one-character string [c] *)
Fixpoint repeat (c : ascii) (n : nat) : string :=
  match n with
  | O => EmptyString
  | S n' => String c (repeat c n')
  end.

(** [sep.join(l)] *)
Definition join (sep : string) (l : list string) : string :=
  String.concat sep l.

(** [s[0]]; only used on a string known to be non-empty. *)
Definition first_char (s : string) : string := String.substring 0 1 s.

(** [c.isspace()] on the characters below 256. *)
Definition isspace (c : ascii) : bool :=
  let n := nat_of_ascii c in
  (((9 <=? n) && (n <=? 13)) || ((28 <=? n) && (n <=? 32))
   || (n =? 133) || (n =? 160))%nat.

Fixpoint lstrip (s : string) : string :=
  match s with
  | EmptyString => EmptyString
  | String c s' => if isspace c then lstrip s' else s
  end.

Fixpoint rstrip (s : string) : string :=
  match s with
  | EmptyString => EmptyString
  | String c s' =>
      match rstrip s' with
      | EmptyString => if isspace c then EmptyString else String c EmptyString
      | r => String c r
      end
  end.

(** [s.strip()] *)
Definition strip (s : string) : string := rstrip (lstrip s).

(** [s.split(sep)] for a one-character separator *)
Fixpoint split (sep : ascii) (s : string) : list string :=
  match s with
  | EmptyString => [EmptyString]
  | String c s' =>
      if Ascii.eqb c sep then EmptyString :: split sep s'
      else match split sep s' with
           | w :: ws => String c w :: ws
           | [] => [String c EmptyString]
           end
  end.

(** [s.split(sep, 1)] for a one-character separator *)
Fixpoint split1 (sep : ascii) (s : string) : list string :=
  match s with
  | EmptyString => [EmptyString]
  | String c s' =>
      if Ascii.eqb c sep then [EmptyString; s']
      else match split1 sep s' with
           | w :: ws => String c w :: ws
           | [] => [String c EmptyString]
           end
  end.

(** Line boundaries of [str.splitlines] among the characters below 256. *)
Definition is_linebreak (c : ascii) : bool :=
  let n := nat_of_ascii c in
  (((10 <=? n) && (n <=? 13)) || ((28 <=? n) && (n <=? 30))
   || (n =? 133))%nat.

(** [skip_lf] is set right after a carriage return, whose following line
    feed belongs to the same boundary. *)
Fixpoint splitlines_from (skip_lf : bool) (s : string) : list string :=
  match s with
  | EmptyString => []
  | String c s' =>
      if skip_lf && Ascii.eqb c "010" then splitlines_from false s'
      else if is_linebreak c then
        EmptyString :: splitlines_from (Ascii.eqb c "013") s'
      else match splitlines_from false s' with
           | w :: ws => String c w :: ws
           | [] => [String c EmptyString]
           end
  end.

(** [s.splitlines()] *)
Definition splitlines (s : string) : list string := splitlines_from false s.

(** [s.lower()] on the characters below 256: the letters [A] to [Z] and
    the accented capitals 192 to 222, the sign 215 apart. *)
Definition lower_char (c : ascii) : ascii :=
  let n := nat_of_ascii c in
  if (((65 <=? n) && (n <=? 90))
      || ((192 <=? n) && (n <=? 222) && negb (n =? 215)))%nat
  then ascii_of_nat (n + 32) else c.

Fixpoint lower (s : string) : string :=
  match s with
  | EmptyString => EmptyString
  | String c s' => String (lower_char c) (lower s')
  end.

(** [str(n)] and [{n}] in an f-string, for an [int] *)
Definition of_int (n : Z) : string := pretty n.

End PyStr.

(** ** The environment *)

(** A character tab, the field separator of [git]'s tabular output. *)
Definition TAB : ascii := "009"%char.

(** A newline, as a one-character string. *)
Definition NL : string := String "010"%char EmptyString.

Record World := {
  (** [subprocess.check_output(argv, text=True, stderr=DEVNULL)]: the
      standard output, or [inl e] when [CalledProcessError] is raised, [e]
      being the text of the exception. *)
  check_output : list string -> string + string;
  (** [(Path(root) / filepath).as_posix()] *)
  path_join : string -> string -> string;
  (** [Path.exists] and [Path.is_dir], by the path's posix text *)
  path_exists : string -> bool;
  path_is_dir : string -> bool;
  (** [open(p, 'rb')] followed by [read(1024)]: the bytes read, or [None]
      when [FileNotFoundError] or [PermissionError] is raised. *)
  read_bytes : string -> option string;
  (** [open(p, 'r', encoding='utf-8')] followed by [read(1024)]: [false]
      when [UnicodeDecodeError], [FileNotFoundError] or [PermissionError]
      is raised. *)
  read_text_ok : string -> bool;
  (** [Path(filepath).match(pattern)]: whether the path matches, or [inl e]
      when [ValueError] is raised, as it is on an empty pattern, [e] being
      the text of the exception. *)
  path_match : string -> string -> string + bool;
  (** [Path(filepath).suffix] *)
  path_suffix : string -> string;
}.

(** ** Effects *)

Inductive event : Type :=
| Subprocess (argv : list string)
| FsExists (p : string)
| FsIsDir (p : string)
| FsOpenBytes (p : string)
| FsOpenText (p : string)
| Stdout (text : string)
| Stderr (text : string).

(** A computation returns its value and the events it performed. *)
Definition Eff (A : Type) : Type := A * list event.

Definition ret {A : Type} (a : A) : Eff A := (a, []).

Definition bind {A B : Type} (m : Eff A) (k : A -> Eff B) : Eff B :=
  (fst (k (fst m)), snd m ++ snd (k (fst m))).

Definition emit (e : event) : Eff unit := (tt, [e]).

Notation "'let!' x ':=' m 'in' k" := (bind m (fun x => k))
  (at level 10, x pattern, m at level 100, k at level 200).

Notation "'do!' m 'in' k" := (bind m (fun _ => k))
  (at level 10, m at level 100, k at level 200).

(** [a and b] with Python's short circuit: [b] runs only when [a] holds. *)
Definition and_then (a b : Eff bool) : Eff bool :=
  let! x := a in if x then b else ret false.

(** A [for] loop that threads its accumulator. *)
Fixpoint for_each {A S : Type} (body : A -> S -> Eff S) (l : list A) (s : S)
  : Eff S :=
  match l with
  | [] => ret s
  | a :: l' => let! s' := body a s in for_each body l' s'
  end.

(** ** The program *)

Section Program.

Context (w : World).

(** [absolute_path.exists()] and [absolute_path.is_dir()] *)
Definition fs_exists (p : string) : Eff bool :=
  do! emit (FsExists p) in ret (path_exists w p).

Definition fs_is_dir (p : string) : Eff bool :=
  do! emit (FsIsDir p) in ret (path_is_dir w p).

(** [is_binary_file]: a null byte in the first chunk, or a failure of
    either read, classifies the file as binary. *)
Definition is_binary_file (filepath : string) : Eff bool :=
  do! emit (FsOpenBytes filepath) in
  match read_bytes w filepath with
  | None => ret true
  | Some chunk =>
      if PyStr.contains "000" chunk then ret true
      else
        do! emit (FsOpenText filepath) in
        ret (negb (read_text_ok w filepath))
  end.

Definition rev_parse_argv : list string :=
  ["git"; "rev-parse"; "--show-toplevel"].

(** [get_repo_root]: the root is kept as the text given to [Path]. *)
Definition get_repo_root : Eff (option string) :=
  let argv := rev_parse_argv in
  do! emit (Subprocess argv) in
  match check_output w argv with
  | inr output => ret (Some (PyStr.strip output))
  | inl _ => ret None
  end.

(** The body of the parsing loop of [get_staged_changes]. *)
Fixpoint parse_name_status (status_output : list string)
  (changes : list (string * string)) : list (string * string) :=
  match status_output with
  | [] => changes
  | line :: rest =>
      if String.eqb (PyStr.strip line) "" then parse_name_status rest changes
      else
        match PyStr.split1 TAB line with
        | status :: filepath :: _ =>
            parse_name_status rest (changes ++ [(status, filepath)])
        | _ => parse_name_status rest changes
        end
  end.

Definition name_status_argv : list string :=
  ["git"; "diff"; "--cached"; "--name-status"].

Definition get_staged_changes : Eff (list (string * string)) :=
  let argv := name_status_argv in
  do! emit (Subprocess argv) in
  match check_output w argv with
  | inl e =>
      do! emit (Stderr
        ("Error: Not in a git repository or git command failed: " +:+ e
         +:+ NL)) in
      ret []
  | inr out => ret (parse_name_status (PyStr.splitlines out) [])
  end.

(** [line.startswith('@@') or line.startswith('+++') or
    line.startswith('---')] *)
Definition is_diff_marker (line : string) : bool :=
  PyStr.startswith line "@@" || PyStr.startswith line "+++"
  || PyStr.startswith line "---".

(** The [for i, line in enumerate(diff_lines)] loop of [get_file_diff]:
    [rest] is what remains to be visited, [i] the index of its head. *)
Fixpoint split_diff (diff_lines : list string) (i : nat) (rest : list string)
  (header_lines content_lines : list string) : list string * list string :=
  match rest with
  | [] => (header_lines, content_lines)
  | line :: rest' =>
      if is_diff_marker line then
        if (length header_lines <? 10)%nat then
          split_diff diff_lines (S i) rest' (header_lines ++ [line])
            content_lines
        else (header_lines, content_lines ++ drop i diff_lines)
      else if (i <? 10)%nat then
        split_diff diff_lines (S i) rest' (header_lines ++ [line])
          content_lines
      else
        split_diff diff_lines (S i) rest' header_lines
          (content_lines ++ [line])
  end.

Definition truncation_marker (max_lines_per_file : Z) : string :=
  "... (diff truncated at " +:+ PyStr.of_int max_lines_per_file +:+ " lines)".

(** [content_lines] after the [if remaining_lines > 0] statement. *)
Definition slice_content (content_lines : list string) (remaining_lines : Z)
  : list string :=
  if (remaining_lines >? 0)%Z then take (Z.to_nat remaining_lines) content_lines
  else content_lines.

(** Lines 85 to 110 of [get_file_diff]: what is returned for the lines
    [diff_lines] of the subprocess output. *)
Definition truncate_diff (diff_lines : list string) (max_lines_per_file : Z)
  : list string :=
  if (Z.of_nat (length diff_lines) >? max_lines_per_file)%Z then
    let '(header_lines, content_lines) :=
      split_diff diff_lines 0 diff_lines [] [] in
    let remaining_lines :=
      (max_lines_per_file - Z.of_nat (length header_lines) - 1)%Z in
    let content_lines := slice_content content_lines remaining_lines in
    let diff_lines := header_lines ++ content_lines in
    diff_lines ++ [truncation_marker max_lines_per_file]
  else diff_lines.

Definition diff_argv (filepath : string) (context_lines : Z) : list string :=
  ["git"; "diff"; "--cached"; "--unified=" +:+ PyStr.of_int context_lines;
   "--"; filepath].

Definition get_file_diff (filepath : string) (max_lines_per_file : Z)
  (context_lines : Z) : Eff (list string) :=
  let argv := diff_argv filepath context_lines in
  do! emit (Subprocess argv) in
  match check_output w argv with
  | inr diff_output =>
      ret (truncate_diff (PyStr.splitlines diff_output) max_lines_per_file)
  | inl _ => ret []
  end.

Definition numstat_argv (filepath : string) : list string :=
  ["git"; "diff"; "--cached"; "--numstat"; "--"; filepath].

Definition get_file_stats (filepath : string) : Eff string :=
  let argv := numstat_argv filepath in
  do! emit (Subprocess argv) in
  match check_output w argv with
  | inr out =>
      let stat_output := PyStr.strip out in
      if String.eqb stat_output "" then ret ""
      else
        match PyStr.split TAB stat_output with
        | additions :: deletions :: _ =>
            if negb (String.eqb additions "-")
               && negb (String.eqb deletions "-")
            then ret ("(+" +:+ additions +:+ "/-" +:+ deletions +:+ ")")
            else ret ""
        | _ => ret ""
        end
  | inl _ => ret ""
  end.

Definition status_map : gmap string string :=
  list_to_map
    [("A", "Added"); ("M", "Modified"); ("D", "Deleted"); ("R", "Renamed");
     ("C", "Copied"); ("T", "Type changed"); ("U", "Unmerged")].

Definition format_status (status : string) : string :=
  if PyStr.startswith status "R" || PyStr.startswith status "C" then
    let base_status := PyStr.first_char status in
    default base_status (status_map !! base_status)
  else default status (status_map !! status).

(** [any(path.match(pattern) for pattern in include_patterns)]: the
    patterns are tried in order up to the first that matches; a
    [ValueError] met on the way ends the evaluation. *)
Fixpoint any_match (filepath : string) (include_patterns : list string)
  : string + bool :=
  match include_patterns with
  | [] => inr false
  | pattern :: rest =>
      match path_match w filepath pattern with
      | inl e => inl e
      | inr true => inr true
      | inr false => any_match filepath rest
      end
  end.

(** The [for pattern in exclude_patterns] loop comes first; the include
    patterns are looked at once it has run to its end. Nothing catches the
    [ValueError] of [path.match]: [inl e] is that exception leaving the
    function. *)
Fixpoint should_include_file (filepath : string)
  (include_patterns exclude_patterns : list string) : string + bool :=
  match exclude_patterns with
  | pattern :: rest =>
      match path_match w filepath pattern with
      | inl e => inl e
      | inr true => inr false
      | inr false => should_include_file filepath include_patterns rest
      end
  | [] =>
      match include_patterns with
      | [] => inr true
      | _ => any_match filepath include_patterns
      end
  end.

(** The list comprehension that filters the staged changes: the test runs
    on each change in order, and its exception, if any, leaves the
    comprehension. *)
Fixpoint filter_changes (include_patterns exclude_patterns : list string)
  (staged_changes : list (string * string))
  : string + list (string * string) :=
  match staged_changes with
  | [] => inr []
  | (status, filepath) :: rest =>
      match should_include_file filepath include_patterns
              exclude_patterns with
      | inl e => inl e
      | inr keep =>
          match filter_changes include_patterns exclude_patterns rest with
          | inl e => inl e
          | inr kept => inr (if keep then (status, filepath) :: kept else kept)
          end
      end
  end.

(** The arguments of [get_staged_diff]. *)
Record Config := {
  max_lines_per_file : Z;
  context_lines : Z;
  include_stats : bool;
  include_patterns : option (list string);
  exclude_patterns : option (list string);
  group_by_type : bool;
}.

(** [patterns or fallback], for an optional list *)
Definition or_list (patterns : option (list string)) (fallback : list string)
  : list string :=
  match patterns with
  | Some (p :: ps) => p :: ps
  | _ => fallback
  end.

Definition default_exclude_patterns : list string :=
  ["*.pyc"; "*.pyo"; "__pycache__/*"; ".git/*"; "*.so"; "*.dylib"; "*.dll"].

(** [Path(filepath).suffix.lower() or 'no_extension'] *)
Definition extension_of (filepath : string) : string :=
  let ext := PyStr.lower (path_suffix w filepath) in
  if String.eqb ext "" then "no_extension" else ext.

(** The dictionary [by_type] after the grouping loop. *)
Definition group_by_extension (filtered_changes : list (string * string))
  : gmap string (list (string * string)) :=
  fold_left
    (fun by_type '(status, filepath) =>
       let ext := extension_of filepath in
       let by_type :=
         match by_type !! ext with
         | None => <[ext := []]> by_type
         | Some _ => by_type
         end in
       <[ext := default [] (by_type !! ext) ++ [(status, filepath)]]> by_type)
    filtered_changes ∅.

(** [sorted(by_type.keys())] *)
Definition sorted_keys (by_type : gmap string (list (string * string)))
  : list string :=
  merge_sort (fun a b => String.leb a b) (elements (dom by_type)).

(** The entry [f"\nFile not found: {filepath} ({format_status(status)})"] *)
Definition file_not_found_entry (filepath status : string) : string :=
  NL +:+ "File not found: " +:+ filepath +:+ " (" +:+ format_status status
  +:+ ")".

(** The text of the header line [f"{path} ({format_status(status)}) {stats}"],
    which [file_header] holds after a newline. *)
Definition header_text (absolute_path status stats : string) : string :=
  absolute_path +:+ " (" +:+ format_status status +:+ ") " +:+ stats.

(** The text-file part of the loop body (lines 250 to 262). *)
Definition report_text_file (cfg : Config) (absolute_path status : string)
  (output : list string) : Eff (list string) :=
  let! stats :=
    (if include_stats cfg then get_file_stats absolute_path else ret "") in
  let file_header := NL +:+ header_text absolute_path status stats in
  let output := output ++ [file_header] in
  let output :=
    output ++ [PyStr.repeat "-" (Nat.min (String.length file_header) 80)] in
  let! diff_lines :=
    get_file_diff absolute_path (max_lines_per_file cfg) (context_lines cfg) in
  let output :=
    match diff_lines with
    | _ :: _ => output ++ diff_lines
    | [] => output ++ ["No diff available."]
    end in
  ret (output ++ [""]).

(** The body of the per-file loop, after the duplicate test (lines 228 to
    262); every [continue] is a return of the output so far. *)
Definition report_file (cfg : Config) (repo_root status filepath : string)
  (output : list string) : Eff (list string) :=
  let absolute_path := path_join w repo_root filepath in
  do! emit (Stdout (absolute_path +:+ NL)) in
  let! missing :=
    and_then (let! e := fs_exists absolute_path in ret (negb e))
             (ret (negb (PyStr.contains "D" status))) in
  if missing then
    ret (output ++ [file_not_found_entry filepath status])
  else
    let! is_directory :=
      and_then (fs_exists absolute_path) (fs_is_dir absolute_path) in
    if is_directory then
      ret (output ++ [NL +:+ "Directory " +:+ format_status status +:+ ": "
                      +:+ filepath])
    else
      let! is_binary :=
        and_then (fs_exists absolute_path) (is_binary_file absolute_path) in
      if is_binary then
        let! stats :=
          (if include_stats cfg then get_file_stats filepath else ret "") in
        ret (output ++ [NL +:+ "Binary file " +:+ format_status status
                        +:+ ": " +:+ filepath +:+ " " +:+ stats])
      else report_text_file cfg absolute_path status output.

(** The loop [for status, filepath in filtered_changes], with the set
    [processed_files] and the list [output] it updates. *)
Fixpoint report_loop (cfg : Config) (repo_root : string)
  (filtered_changes : list (string * string)) (processed_files : gset string)
  (output : list string) : Eff (list string) :=
  match filtered_changes with
  | [] => ret output
  | (status, filepath) :: rest =>
      if decide (filepath ∈ processed_files) then
        report_loop cfg repo_root rest processed_files output
      else
        let processed_files := processed_files ∪ {[filepath]} in
        let! output := report_file cfg repo_root status filepath output in
        report_loop cfg repo_root rest processed_files output
  end.

(** [get_staged_diff] returns its report, [inr report], or is left by the
    [ValueError] of the pattern filter, [inl e]. *)
Definition get_staged_diff (cfg : Config) : Eff (string + string) :=
  let include_patterns := or_list (include_patterns cfg) [] in
  let exclude_patterns :=
    or_list (exclude_patterns cfg) default_exclude_patterns in
  let! repo_root := get_repo_root in
  match repo_root with
  | None => ret (inr "Error: Not in a git repository.")
  | Some repo_root =>
      let output := ["=== Staged Changes Summary ==="] in
      let! staged_changes := get_staged_changes in
      match staged_changes with
      | [] =>
          ret (inr (PyStr.join NL (output ++ ["No staged changes found."])))
      | _ :: _ =>
          match filter_changes include_patterns exclude_patterns
                  staged_changes with
          | inl e => ret (inl e)
          | inr [] =>
              ret (inr (PyStr.join NL
                          (output
                           ++ ["No files match the specified patterns."])))
          | inr ((_ :: _) as filtered_changes) =>
              let output :=
                if group_by_type cfg then
                  let by_type := group_by_extension filtered_changes in
                  output ++ [NL +:+ "File types: "
                             +:+ PyStr.join ", " (sorted_keys by_type)]
                else output in
              let output :=
                output ++ [NL +:+ "Total files: "
                           +:+ PyStr.of_int
                                 (Z.of_nat (length filtered_changes))] in
              let output := output ++ [PyStr.repeat "=" 50] in
              let! output :=
                report_loop cfg repo_root filtered_changes ∅ output in
              ret (inr (PyStr.join NL output))
          end
      end
  end.

(** The command line once parsed: the fields of [args] in [main]. *)
Record Args := {
  arg_max_lines : Z;
  arg_context : Z;
  arg_no_stats : bool;
  arg_include : option (list string);
  arg_exclude : option (list string);
  arg_group_by_type : bool;
}.

(** How [main] ends: it returns, or [sys.exit(code)] is called. *)
Inductive outcome : Type :=
| Returned
| Exited (code : Z).

(** [main] after [parse_args]: the report is computed, then printed; an
    exception that leaves [get_staged_diff] is reported on standard error
    by the handler [except Exception], which exits with code 1. *)
Definition main (args : Args) : Eff outcome :=
  let! result :=
    get_staged_diff
      {| max_lines_per_file := arg_max_lines args;
         context_lines := arg_context args;
         include_stats := negb (arg_no_stats args);
         include_patterns := arg_include args;
         exclude_patterns := arg_exclude args;
         group_by_type := arg_group_by_type args |} in
  match result with
  | inr report =>
      do! emit (Stdout (report +:+ NL)) in
      ret Returned
  | inl e =>
      do! emit (Stderr ("Error: " +:+ e +:+ NL)) in
      ret (Exited 1)
  end.

End Program.

(** ** Vocabulary of the statements *)

Definition status_codes : list string := ["A"; "M"; "D"; "R"; "C"; "T"; "U"].

Definition is_digit (c : ascii) : bool :=
  ((48 <=? nat_of_ascii c) && (nat_of_ascii c <=? 57))%nat.

Fixpoint all_digits (s : string) : bool :=
  match s with
  | EmptyString => true
  | String c s' => is_digit c && all_digits s'
  end.

(** A rename or copy code with its similarity score: [R] or [C] followed by
    digits only. *)
Definition similarity_variant (s : string) : bool :=
  match s with
  | String c score =>
      (Ascii.eqb c "R" || Ascii.eqb c "C") && all_digits score
  | EmptyString => false
  end.

(** The codes the specification names: the seven letters and their
    similarity variants. Every other code is an unknown one. *)
Definition known_status (s : string) : bool :=
  bool_decide (s ∈ status_codes) || similarity_variant s.


(** *** Parts of a file's block *)

Section BlockVocabulary.

Context (w : World) (cfg : Config).

(** The statistics shown in the header of a text file. *)
Definition stats_of (absolute_path : string) : Eff string :=
  if include_stats cfg then get_file_stats w absolute_path else ret "".

(** The lines under the rule: the diff, or the notice that there is none. *)
Definition body_of (absolute_path : string) : list string :=
  match fst (get_file_diff w absolute_path (max_lines_per_file cfg)
               (context_lines cfg)) with
  | [] => ["No diff available."]
  | line :: lines => line :: lines
  end.

(** A text entry: on disk as a file that is neither a directory nor
    binary, or absent from disk with a [D] in its status. *)
Definition text_entry (absolute_path status : string) : Prop :=
  (path_exists w absolute_path = true /\
   path_is_dir w absolute_path = false /\
   fst (is_binary_file w absolute_path) = false) \/
  (path_exists w absolute_path = false /\
   PyStr.contains "D" status = true).

End BlockVocabulary.

(** *** The entries the loop works on *)

(** The entries of [changes] whose path is neither in [seen] nor earlier in
    the list. *)
Fixpoint first_occurrences (seen : gset string)
  (changes : list (string * string)) : list (string * string) :=
  match changes with
  | [] => []
  | (status, filepath) :: rest =>
      if decide (filepath ∈ seen) then first_occurrences seen rest
      else (status, filepath) :: first_occurrences (seen ∪ {[filepath]}) rest
  end.

(** One run of the loop body for each entry. *)
Definition report_each (w : World) (cfg : Config) (repo_root : string)
  (changes : list (string * string)) (output : list string)
  : Eff (list string) :=
  for_each
    (fun '(status, filepath) out =>
       report_file w cfg repo_root status filepath out)
    changes output.


(** *** White space in a text *)

(** No character of [s] is white space. *)
Fixpoint solid (s : string) : bool :=
  match s with
  | EmptyString => true
  | String c s' => negb (PyStr.isspace c) && solid s'
  end.

(** Every character of [s] is white space. *)
Fixpoint blank (s : string) : bool :=
  match s with
  | EmptyString => true
  | String c s' => PyStr.isspace c && blank s'
  end.

(** *** Events of a trace *)

Definition is_stdout (e : event) : bool :=
  match e with
  | Stdout _ => true
  | _ => false
  end.

(** The title line of every report that is not the error text. *)
Definition report_title : string := "=== Staged Changes Summary ===".

(** *** Extensions *)

(** The entries of [changes] whose extension is [ext]. *)
Definition with_extension (w : World) (ext : string)
  (changes : list (string * string)) : list (string * string) :=
  List.filter (fun change => String.eqb (extension_of w (snd change)) ext)
    changes.

(** The configuration [main] builds from its arguments. *)
Definition config_of (args : Args) : Config := {|
  max_lines_per_file := arg_max_lines args;
  context_lines := arg_context args;
  include_stats := negb (arg_no_stats args);
  include_patterns := arg_include args;
  exclude_patterns := arg_exclude args;
  group_by_type := arg_group_by_type args;
|}.

(** *** The block of a change

    What the loop body appends for a change and what it runs, read off a
    run of the body on the empty output. *)

Definition file_block (w : World) (cfg : Config) (repo_root : string)
  (change : string * string) : list string :=
  fst (report_file w cfg repo_root (fst change) (snd change) []).

Definition file_events (w : World) (cfg : Config) (repo_root : string)
  (change : string * string) : list event :=
  snd (report_file w cfg repo_root (fst change) (snd change) []).

(** The four entries a block can open with: each names the path, by its
    text as staged or by its absolute text, and the label of the status. *)
Definition block_heads (w : World) (cfg : Config) (repo_root : string)
  (change : string * string) : list string :=
  let status := fst change in
  let filepath := snd change in
  let absolute_path := path_join w repo_root filepath in
  [file_not_found_entry filepath status;
   NL +:+ "Directory " +:+ format_status status +:+ ": " +:+ filepath;
   NL +:+ "Binary file " +:+ format_status status +:+ ": " +:+ filepath
   +:+ " " +:+ fst (stats_of w cfg filepath);
   NL +:+ header_text absolute_path status
            (fst (stats_of w cfg absolute_path))].

(** *** A small world to run the program in

    A repository at [/r] with [a.py] modified (a text file on disk) and
    [gone.txt] deleted (no longer on disk). *)

Definition ends_with (s suffix : string) : bool :=
  (String.length suffix <=? String.length s)%nat
  && String.eqb
       (String.substring (String.length s - String.length suffix)
          (String.length suffix) s)
       suffix.

(** A matcher for the patterns [*<suffix>] and for literal names; as
    [Path.match] does, it refuses the empty pattern. *)
Definition demo_match (filepath pattern : string) : string + bool :=
  match pattern with
  | EmptyString => inl "empty pattern"
  | String "*" suffix => inr (ends_with filepath suffix)
  | _ => inr (String.eqb filepath pattern)
  end.

Definition demo_diff : string :=
  "--- a/a.py" +:+ NL +:+ "+++ b/a.py" +:+ NL +:+ "@@ -1 +1 @@" +:+ NL
  +:+ "-x" +:+ NL +:+ "+y" +:+ NL.

Definition demo_world : World := {|
  check_output := fun argv =>
    if decide (argv = rev_parse_argv) then inr ("/r" +:+ NL)
    else if decide (argv = name_status_argv) then
      inr ("M" +:+ String TAB "a.py" +:+ NL
           +:+ "D" +:+ String TAB "gone.txt" +:+ NL)
    else if decide (argv = diff_argv "/r/a.py" 3) then inr demo_diff
    else if decide (argv = numstat_argv "/r/a.py") then
      inr ("1" +:+ String TAB "1" +:+ String TAB "a.py" +:+ NL)
    else inl "Command returned non-zero exit status 128.";
  path_join := fun root filepath => root +:+ "/" +:+ filepath;
  path_exists := fun p => String.eqb p "/r/a.py";
  path_is_dir := fun _ => false;
  read_bytes := fun p => if String.eqb p "/r/a.py" then Some "x = 1" else None;
  read_text_ok := fun p => String.eqb p "/r/a.py";
  path_match := demo_match;
  path_suffix := fun p => if ends_with p ".py" then ".py" else ".txt";
|}.

(** The same machine outside of any repository: every [git] call fails. *)
Definition no_repo_world : World := {|
  check_output := fun _ => inl "Command returned non-zero exit status 128.";
  path_join := path_join demo_world;
  path_exists := path_exists demo_world;
  path_is_dir := path_is_dir demo_world;
  read_bytes := read_bytes demo_world;
  read_text_ok := read_text_ok demo_world;
  path_match := path_match demo_world;
  path_suffix := path_suffix demo_world;
|}.

Definition demo_config : Config := {|
  max_lines_per_file := 100;
  context_lines := 3;
  include_stats := true;
  include_patterns := None;
  exclude_patterns := None;
  group_by_type := false;
|}.

(** *** Scripted worlds

    A repository at [/r] that holds a directory [docs], a picture
    [logo.png] with a null byte in it and a text file [empty.txt]; the
    answers of [git] are those of a script, and every command that the
    script does not list fails. *)

Fixpoint run_script (script : list (list string * string))
  (argv : list string) : string + string :=
  match script with
  | [] => inl "Command returned non-zero exit status 128."
  | (command, out) :: rest =>
      if decide (argv = command) then inr out else run_script rest argv
  end.

Definition scripted_world (script : list (list string * string)) : World := {|
  check_output := run_script script;
  path_join := fun root filepath => root +:+ "/" +:+ filepath;
  path_exists := fun p =>
    String.eqb p "/r/docs" || String.eqb p "/r/logo.png"
    || String.eqb p "/r/empty.txt";
  path_is_dir := fun p => String.eqb p "/r/docs";
  read_bytes := fun p =>
    if String.eqb p "/r/logo.png" then Some (String "000" "PNG")
    else Some "";
  read_text_ok := fun _ => true;
  path_match := demo_match;
  path_suffix := fun p => if ends_with p ".png" then ".PNG" else "";
|}.

Definition negative_config : Config := {|
  max_lines_per_file := -1;
  context_lines := 3;
  include_stats := true;
  include_patterns := None;
  exclude_patterns := None;
  group_by_type := false;
|}.

(** The arguments of a run with [--exclude ''], the empty pattern. *)
Definition empty_exclude_args : Args := {|
  arg_max_lines := 100;
  arg_context := 3;
  arg_no_stats := false;
  arg_include := None;
  arg_exclude := Some [""];
  arg_group_by_type := false;
|}.

Definition demo_args : Args := {|
  arg_max_lines := 100;
  arg_context := 3;
  arg_no_stats := false;
  arg_include := None;
  arg_exclude := None;
  arg_group_by_type := false;
|}.

(** The script of a listing with the directory and the picture. *)
Definition assets_script : list (list string * string) :=
  [(rev_parse_argv, "/r" +:+ NL);
   (name_status_argv,
    "A" +:+ String TAB "docs" +:+ NL +:+ "A" +:+ String TAB "logo.png" +:+ NL);
   (diff_argv "/r/empty.txt" 3, "");
   (numstat_argv "logo.png",
    "-" +:+ String TAB ("-" +:+ String TAB ("logo.png" +:+ NL)))].

(** The staged changes that pass the filter of a configuration, or the
    exception of the filter. *)
Definition filtered_changes_of (w : World) (cfg : Config)
  : string + list (string * string) :=
  filter_changes w (or_list (include_patterns cfg) [])
    (or_list (exclude_patterns cfg) default_exclude_patterns)
    (fst (get_staged_changes w)).

(** [Path.match] accepts the pattern: it answers, and does not raise. *)
Definition accepted (w : World) (filepath pattern : string) : Prop :=
  exists answer : bool, path_match w filepath pattern = inr answer.

(** The path matches the pattern. *)
Definition matches (w : World) (filepath pattern : string) : bool :=
  match path_match w filepath pattern with
  | inr true => true
  | _ => false
  end.

(** The answer of the filter once the exclude loop has found nothing. *)
Definition include_answer (w : World) (filepath : string)
  (inc : list string) : string + bool :=
  match inc with
  | [] => inr true
  | _ => any_match w filepath inc
  end.

(** ** Status labels *)

Lemma startswith_cons (c : ascii) (rest : string) :
  PyStr.startswith (String c rest) (String c EmptyString) = true.
Proof.
  unfold PyStr.startswith. simpl.
  destruct (ascii_dec c c) as [_ | Hne]; [| congruence].
  destruct rest; reflexivity.
Qed.

Lemma startswith_char_inv (s : string) (c : ascii) :
  PyStr.startswith s (String c EmptyString) = true ->
  exists rest, s = String c rest.
Proof.
  unfold PyStr.startswith. destruct s as [| d rest]; simpl; [discriminate |].
  destruct (ascii_dec c d) as [-> | _]; [eauto | discriminate].
Qed.

Lemma first_char_cons (c : ascii) (rest : string) :
  PyStr.first_char (String c rest) = String c EmptyString.
Proof. unfold PyStr.first_char. simpl. destruct rest; reflexivity. Qed.

Lemma format_status_renamed (rest : string) :
  format_status (String "R" rest) = "Renamed".
Proof.
  unfold format_status.
  rewrite (startswith_cons "R" rest), first_char_cons. reflexivity.
Qed.

Lemma format_status_copied (rest : string) :
  format_status (String "C" rest) = "Copied".
Proof.
  unfold format_status.
  rewrite (startswith_cons "C" rest), orb_true_r, first_char_cons.
  reflexivity.
Qed.

Lemma status_map_unknown (s : string) :
  s ∉ status_codes -> status_map !! s = None.
Proof.
  intros Hs. unfold status_map. apply not_elem_of_list_to_map_1. exact Hs.
Qed.

Lemma not_status_code_X : "X" ∉ status_codes.
Proof.
  intros Hin. apply list_elem_of_In in Hin. simpl in Hin.
  intuition discriminate.
Qed.

(** C6, as stated, fails on a code that is neither one of the seven letters
    nor a similarity variant: ["Rxyz"] is unknown in that sense, yet it is
    not returned unchanged. *)
Lemma format_status_unknown_not_verbatim :
  known_status "Rxyz" = false /\ format_status "Rxyz" <> "Rxyz".
Proof.
  split; [reflexivity |].
  rewrite format_status_renamed. discriminate.
Qed.

(** C6 (amended): [format_status] is a total function; each of the seven
    codes maps to its label, every [R<digits>] and [C<digits>] maps to the
    label of its first letter, and every code that is none of the seven and
    begins with neither [R] nor [C] is returned unchanged. *)
Theorem format_status_total :
  (format_status "A" = "Added" /\ format_status "M" = "Modified" /\
   format_status "D" = "Deleted" /\ format_status "R" = "Renamed" /\
   format_status "C" = "Copied" /\ format_status "T" = "Type changed" /\
   format_status "U" = "Unmerged") /\
  (forall score : string,
     all_digits score = true ->
     format_status (String "R" score) = "Renamed" /\
     format_status (String "C" score) = "Copied") /\
  (forall status : string,
     status ∉ status_codes ->
     PyStr.startswith status "R" = false ->
     PyStr.startswith status "C" = false ->
     format_status status = status).
Proof.
  split; [| split].
  - repeat split; reflexivity.
  - intros score _. split.
    + apply format_status_renamed.
    + apply format_status_copied.
  - intros status Hcode HR HC. unfold format_status.
    rewrite HR, HC. simpl. rewrite (status_map_unknown status Hcode).
    reflexivity.
Qed.

Lemma format_status_total_witness :
  (format_status "R100" = "Renamed" /\ format_status "C75" = "Copied") /\
  format_status "X" = "X".
Proof.
  destruct format_status_total as (_ & Hvariant & Hunknown). split.
  - apply (Hvariant "100"). reflexivity.
  - apply (Hunknown "X");
      [exact not_status_code_X | reflexivity | reflexivity].
Defined.

(** C10: a status that begins with [R] is labelled "Renamed" and one that
    begins with [C] is labelled "Copied", whatever follows the first
    character; the rest of the code is never looked at. *)
Theorem format_status_first_letter (status : string) :
  (PyStr.startswith status "R" = true -> format_status status = "Renamed") /\
  (PyStr.startswith status "C" = true -> format_status status = "Copied").
Proof.
  split; intros Hprefix.
  - destruct (startswith_char_inv status "R" Hprefix) as [rest ->].
    apply format_status_renamed.
  - destruct (startswith_char_inv status "C" Hprefix) as [rest ->].
    apply format_status_copied.
Qed.

Lemma format_status_first_letter_witness :
  format_status "Rxyz" = "Renamed" /\ format_status "Cabc" = "Copied".
Proof.
  split.
  - apply (proj1 (format_status_first_letter "Rxyz")). reflexivity.
  - apply (proj2 (format_status_first_letter "Cabc")). reflexivity.
Defined.

(** ** The pattern filter *)

Section PatternFilter.

Context (w : World).

Lemma should_include_file_accepted (filepath : string)
  (inc exc : list string) :
  (forall pattern, In pattern exc -> accepted w filepath pattern) ->
  should_include_file w filepath inc exc =
  if existsb (matches w filepath) exc then inr false
  else include_answer w filepath inc.
Proof.
  induction exc as [| pattern rest IH]; intros Haccepted.
  - destruct inc; reflexivity.
  - cbn [should_include_file existsb]. unfold matches at 1.
    destruct (Haccepted pattern (or_introl eq_refl)) as [answer ->].
    destruct answer; [reflexivity |].
    cbn [orb]. apply IH. intros q Hq. apply Haccepted. right. exact Hq.
Qed.

Lemma existsb_permutation {A : Type} (f : A -> bool) (l l' : list A) :
  Permutation l l' -> existsb f l = existsb f l'.
Proof.
  induction 1 as [| x l l' _ IH | x y l | l l' l'' _ IH1 _ IH2]; simpl.
  - reflexivity.
  - rewrite IH. reflexivity.
  - destruct (f x), (f y); reflexivity.
  - congruence.
Qed.

(** C5 (amended): when [Path.match] accepts every exclude pattern, a path
    that matches one of them is dropped, whatever the include patterns
    are, and the answer of the filter does not depend on the order in
    which the exclude patterns are given. *)
Theorem exclude_pattern_wins (filepath : string) (inc exc : list string) :
  (forall pattern : string, In pattern exc -> accepted w filepath pattern) ->
  (forall pattern : string,
     In pattern exc -> path_match w filepath pattern = inr true ->
     should_include_file w filepath inc exc = inr false) /\
  (forall exc' : list string,
     Permutation exc exc' ->
     should_include_file w filepath inc exc' =
     should_include_file w filepath inc exc).
Proof.
  intros Haccepted. split.
  - intros pattern Hin Hmatch.
    rewrite (should_include_file_accepted _ _ _ Haccepted).
    assert (existsb (matches w filepath) exc = true) as ->; [| reflexivity].
    apply existsb_exists. exists pattern. split; [exact Hin |].
    unfold matches. rewrite Hmatch. reflexivity.
  - intros exc' Hperm.
    rewrite (should_include_file_accepted _ _ _ Haccepted).
    rewrite should_include_file_accepted.
    + rewrite (existsb_permutation _ exc exc' Hperm). reflexivity.
    + intros pattern Hin. apply Haccepted.
      apply (Permutation_in _ (Permutation_sym Hperm)). exact Hin.
Qed.

End PatternFilter.

(** C5, as stated, fails: [x.pyc] matches the exclude pattern [*.pyc], yet
    with the empty pattern before it the filter does not return false, it
    is left by the [ValueError] of [Path.match]; with the two patterns the
    other way round it returns false. *)
Lemma exclude_pattern_order_matters :
  path_match demo_world "x.pyc" "*.pyc" = inr true /\
  should_include_file demo_world "x.pyc" [] [""; "*.pyc"] =
    inl "empty pattern" /\
  should_include_file demo_world "x.pyc" [] ["*.pyc"; ""] = inr false /\
  should_include_file demo_world "x.pyc" [] [""; "*.pyc"] <>
  should_include_file demo_world "x.pyc" [] ["*.pyc"; ""].
Proof. repeat split; try reflexivity. discriminate. Qed.

Lemma exclude_pattern_wins_witness :
  should_include_file demo_world "x.pyc" ["*.pyc"] ["*.md"; "*.pyc"] =
    inr false /\
  should_include_file demo_world "x.pyc" ["*.pyc"] ["*.pyc"; "*.md"] =
  should_include_file demo_world "x.pyc" ["*.pyc"] ["*.md"; "*.pyc"].
Proof.
  assert (Haccepted : forall pattern,
            In pattern ["*.md"; "*.pyc"] ->
            accepted demo_world "x.pyc" pattern).
  { intros pattern [<- | [<- | []]]; eexists; reflexivity. }
  destruct (exclude_pattern_wins demo_world "x.pyc" ["*.pyc"]
              ["*.md"; "*.pyc"] Haccepted) as [Hdrop Horder].
  split.
  - apply (Hdrop "*.pyc"); [simpl; auto | reflexivity].
  - apply Horder. apply perm_swap.
Defined.

(** ** The truncation heuristic *)

(** Whatever the lines are, the scan puts the first ten of them in the
    header and the others, in order, in the content. *)
Lemma split_diff_from (diff_lines rest pre : list string) :
  diff_lines = pre ++ rest ->
  split_diff diff_lines (length pre) rest (take 10 pre) (drop 10 pre) =
  (take 10 diff_lines, drop 10 diff_lines).
Proof.
  revert pre. induction rest as [| line rest' IH]; intros pre Hdiff.
  - rewrite app_nil_r in Hdiff. subst pre. reflexivity.
  - assert (Hnext : diff_lines = (pre ++ [line]) ++ rest')
      by (rewrite <- app_assoc; exact Hdiff).
    specialize (IH (pre ++ [line]) Hnext).
    rewrite length_app in IH. simpl in IH.
    replace (length pre + 1) with (S (length pre)) in IH by lia.
    simpl. rewrite length_take.
    destruct (Nat.ltb_spec (length pre) 10) as [Hlt | Hge].
    + replace (10 `min` length pre <? 10)%nat with true
        by (symmetry; apply Nat.ltb_lt; lia).
      rewrite (take_ge (pre ++ [line])) in IH
        by (rewrite length_app; simpl; lia).
      rewrite (drop_ge (pre ++ [line])) in IH
        by (rewrite length_app; simpl; lia).
      rewrite (take_ge pre) by lia. rewrite (drop_ge pre) by lia.
      destruct (is_diff_marker line); exact IH.
    + replace (10 `min` length pre <? 10)%nat with false
        by (symmetry; apply Nat.ltb_ge; lia).
      destruct (is_diff_marker line).
      * rewrite Hdiff at 1. rewrite drop_app_length.
        rewrite Hdiff. rewrite take_app_le, drop_app_le by lia.
        reflexivity.
      * rewrite take_app_le, drop_app_le in IH by lia. exact IH.
Qed.

Lemma split_diff_spec (diff_lines : list string) :
  split_diff diff_lines 0 diff_lines [] [] =
  (take 10 diff_lines, drop 10 diff_lines).
Proof. exact (split_diff_from diff_lines diff_lines [] eq_refl). Qed.

Lemma length_slice_content (content_lines : list string) (remaining : Z) :
  (0 < remaining)%Z ->
  (Z.of_nat (length (slice_content content_lines remaining)) <= remaining)%Z.
Proof.
  intros Hpos. unfold slice_content.
  destruct (Z.gtb_spec remaining 0) as [_ | Hle]; [| lia].
  rewrite length_take. lia.
Qed.

Lemma truncate_diff_small (diff_lines : list string) (max_lines : Z) :
  (Z.of_nat (length diff_lines) <= max_lines)%Z ->
  truncate_diff diff_lines max_lines = diff_lines.
Proof.
  intros Hle. unfold truncate_diff.
  destruct (Z.gtb_spec (Z.of_nat (length diff_lines)) max_lines) as [Hgt | _];
    [lia | reflexivity].
Qed.

Lemma truncate_diff_large (diff_lines : list string) (max_lines : Z) :
  (max_lines < Z.of_nat (length diff_lines))%Z ->
  truncate_diff diff_lines max_lines =
  take 10 diff_lines
  ++ slice_content (drop 10 diff_lines)
       (max_lines - Z.of_nat (length (take 10 diff_lines)) - 1)
  ++ [truncation_marker max_lines].
Proof.
  intros Hgt. unfold truncate_diff.
  destruct (Z.gtb_spec (Z.of_nat (length diff_lines)) max_lines) as [_ | Hle];
    [| lia].
  rewrite split_diff_spec. rewrite <- app_assoc. reflexivity.
Qed.

(** C1, as stated, fails: with a budget of 5 and a diff of 6 lines, all six
    lines are header lines, the content is empty, and 7 lines are emitted. *)
Lemma truncate_diff_exceeds_small_budget :
  (0 < 5)%Z /\
  (5 < Z.of_nat (length (replicate 6 "x")))%Z /\
  split_diff (replicate 6 "x") 0 (replicate 6 "x") [] [] =
    (replicate 6 "x", []) /\
  length (truncate_diff (replicate 6 "x") 5) = 7 /\
  ~ (Z.of_nat (length (truncate_diff (replicate 6 "x") 5)) <= 5)%Z.
Proof.
  repeat split; try reflexivity; simpl; lia.
Qed.

(** When the remaining budget is not positive the content is left as it
    is: the slice is only taken under [remaining_lines > 0]. *)
Lemma slice_content_nonpositive (content_lines : list string) (remaining : Z) :
  (remaining <= 0)%Z -> slice_content content_lines remaining = content_lines.
Proof.
  intros Hle. unfold slice_content.
  destruct (Z.gtb_spec remaining 0); [lia | reflexivity].
Qed.

Example truncate_diff_budget_11 :
  length (truncate_diff (replicate 20 "x") 11) = 21.
Proof. reflexivity. Qed.

(** C1 (amended): for a diff longer than the budget, the remaining budget
    [max_lines - len(header_lines) - 1] is positive exactly when the budget
    is at least 12; then the content is sliced to at most that many lines
    and no more than [max_lines] lines are emitted, the marker included. *)
Theorem truncate_diff_within_budget
  (diff_lines header_lines content_lines : list string) (max_lines : Z) :
  (max_lines < Z.of_nat (length diff_lines))%Z ->
  split_diff diff_lines 0 diff_lines [] [] = (header_lines, content_lines) ->
  let remaining := (max_lines - Z.of_nat (length header_lines) - 1)%Z in
  ((0 < remaining)%Z <-> (12 <= max_lines)%Z) /\
  ((0 < remaining)%Z ->
   truncate_diff diff_lines max_lines =
     header_lines ++ take (Z.to_nat remaining) content_lines
     ++ [truncation_marker max_lines] /\
   (Z.of_nat (length (take (Z.to_nat remaining) content_lines))
    <= remaining)%Z /\
   (Z.of_nat (length (truncate_diff diff_lines max_lines)) <= max_lines)%Z).
Proof.
  intros Hgt Hsplit remaining. rewrite split_diff_spec in Hsplit.
  injection Hsplit as <- <-. subst remaining.
  assert (Hheader : length (take 10 diff_lines) = 10 `min` length diff_lines)
    by apply length_take.
  split; [lia |]. intros Hpos.
  rewrite (truncate_diff_large _ _ Hgt). unfold slice_content.
  destruct (Z.gtb_spec (max_lines - Z.of_nat (length (take 10 diff_lines)) - 1)
              0) as [_ | Hle]; [| lia].
  split; [reflexivity |].
  rewrite !length_app, length_take. simpl. lia.
Qed.

Lemma truncate_diff_within_budget_witness :
  (0 < 12 - Z.of_nat (length (replicate 10 "x")) - 1)%Z /\
  (Z.of_nat (length (truncate_diff (replicate 20 "x") 12)) <= 12)%Z.
Proof.
  assert (Hgt : (12 < Z.of_nat (length (replicate 20 "x")))%Z)
    by (simpl; lia).
  assert (Hsplit : split_diff (replicate 20 "x") 0 (replicate 20 "x") [] [] =
                   (replicate 10 "x", replicate 10 "x")) by reflexivity.
  destruct (truncate_diff_within_budget _ _ _ 12 Hgt Hsplit) as [Hiff Hcut].
  assert (Hpos : (0 < 12 - Z.of_nat (length (replicate 10 "x")) - 1)%Z)
    by (simpl; lia).
  split; [exact Hpos |]. apply (Hcut Hpos).
Defined.

(** C2: a diff of at most [max_lines] lines is returned as it is, line for
    line, and nothing is appended to it. *)
Theorem get_file_diff_verbatim (w : World) (filepath : string)
  (max_lines context : Z) (diff_output : string) :
  check_output w (diff_argv filepath context) = inr diff_output ->
  (Z.of_nat (length (PyStr.splitlines diff_output)) <= max_lines)%Z ->
  truncate_diff (PyStr.splitlines diff_output) max_lines =
    PyStr.splitlines diff_output /\
  fst (get_file_diff w filepath max_lines context) =
    PyStr.splitlines diff_output.
Proof.
  intros Hout Hle.
  pose proof (truncate_diff_small _ _ Hle) as Hsame.
  split; [exact Hsame |].
  unfold get_file_diff. simpl. rewrite Hout. simpl. exact Hsame.
Qed.

Lemma get_file_diff_verbatim_witness :
  fst (get_file_diff demo_world "/r/a.py" 100 3) =
  ["--- a/a.py"; "+++ b/a.py"; "@@ -1 +1 @@"; "-x"; "+y"].
Proof.
  apply (get_file_diff_verbatim demo_world "/r/a.py" 100 3 demo_diff).
  - reflexivity.
  - vm_compute. discriminate.
Defined.

(** ** The per-file block *)

Section FileBlock.

Context (w : World) (cfg : Config).

Lemma length_repeat (c : ascii) (n : nat) :
  String.length (PyStr.repeat c n) = n.
Proof. induction n as [| n IH]; simpl; [reflexivity | rewrite IH; reflexivity]. Qed.

Lemma get_file_diff_trace (filepath : string) (max_lines context : Z) :
  snd (get_file_diff w filepath max_lines context) =
  [Subprocess (diff_argv filepath context)].
Proof.
  unfold get_file_diff. simpl.
  destruct (check_output w (diff_argv filepath context)); reflexivity.
Qed.

Lemma get_file_stats_trace (filepath : string) :
  snd (get_file_stats w filepath) = [Subprocess (numstat_argv filepath)].
Proof.
  unfold get_file_stats. simpl.
  destruct (check_output w (numstat_argv filepath)) as [e | out];
    [reflexivity |].
  simpl. destruct (String.eqb (PyStr.strip out) ""); [reflexivity |].
  destruct (PyStr.split TAB (PyStr.strip out)) as [| a [| d rest]];
    try reflexivity.
  destruct (negb (String.eqb a "-") && negb (String.eqb d "-")); reflexivity.
Qed.

Lemma report_text_file_output (absolute_path status : string)
  (output : list string) :
  let file_header :=
    NL +:+ header_text absolute_path status (fst (stats_of w cfg absolute_path)) in
  fst (report_text_file w cfg absolute_path status output) =
  output
  ++ [file_header;
      PyStr.repeat "-" (Nat.min (String.length file_header) 80)]
  ++ body_of w cfg absolute_path ++ [""].
Proof.
  unfold report_text_file, body_of, stats_of, bind, ret. cbn [fst snd].
  destruct (fst (get_file_diff w absolute_path (max_lines_per_file cfg)
                   (context_lines cfg))) as [| line lines];
    rewrite <- !app_assoc; reflexivity.
Qed.

Lemma report_text_file_trace (absolute_path status : string)
  (output : list string) :
  snd (report_text_file w cfg absolute_path status output) =
  snd (stats_of w cfg absolute_path)
  ++ [Subprocess (diff_argv absolute_path (context_lines cfg))].
Proof.
  unfold report_text_file, stats_of, bind, ret. cbn [fst snd].
  rewrite get_file_diff_trace, app_nil_r. reflexivity.
Qed.

Lemma report_file_missing_deleted (repo_root status filepath : string)
  (output : list string) :
  let absolute_path := path_join w repo_root filepath in
  path_exists w absolute_path = false ->
  PyStr.contains "D" status = true ->
  report_file w cfg repo_root status filepath output =
  (fst (report_text_file w cfg absolute_path status output),
   [Stdout (absolute_path +:+ NL); FsExists absolute_path;
    FsExists absolute_path; FsExists absolute_path]
   ++ snd (report_text_file w cfg absolute_path status output)).
Proof.
  intros absolute_path Hmissing Hdeleted.
  unfold report_file, and_then, fs_exists, bind, emit, ret. cbn [fst snd].
  fold absolute_path. rewrite Hmissing, Hdeleted. cbn [negb fst snd app].
  reflexivity.
Qed.

Lemma report_file_existing_text (repo_root status filepath : string)
  (output : list string) :
  let absolute_path := path_join w repo_root filepath in
  path_exists w absolute_path = true ->
  path_is_dir w absolute_path = false ->
  fst (is_binary_file w absolute_path) = false ->
  report_file w cfg repo_root status filepath output =
  (fst (report_text_file w cfg absolute_path status output),
   [Stdout (absolute_path +:+ NL); FsExists absolute_path;
    FsExists absolute_path; FsIsDir absolute_path; FsExists absolute_path]
   ++ snd (is_binary_file w absolute_path)
   ++ snd (report_text_file w cfg absolute_path status output)).
Proof.
  intros absolute_path Hexists Hdir Hbinary.
  unfold report_file, and_then, fs_exists, fs_is_dir, bind, emit, ret.
  cbn [fst snd]. fold absolute_path.
  rewrite Hexists. cbn [negb fst snd app]. rewrite Hdir. cbn [fst snd app].
  rewrite Hbinary. cbn [fst snd app]. reflexivity.
Qed.

Lemma report_file_text_entry (repo_root status filepath : string)
  (output : list string) :
  let absolute_path := path_join w repo_root filepath in
  text_entry w absolute_path status ->
  fst (report_file w cfg repo_root status filepath output) =
  fst (report_text_file w cfg absolute_path status output).
Proof.
  intros absolute_path [(Hexists & Hdir & Hbinary) | (Hmissing & Hdeleted)].
  - unfold absolute_path.
    rewrite report_file_existing_text by assumption. reflexivity.
  - unfold absolute_path.
    rewrite report_file_missing_deleted by assumption. reflexivity.
Qed.

(** C3 (amended): the block of a text file opens with the entry made of a
    newline and the header text [<path> (<status>) <stats>], the path being
    the absolute one; the rule that follows is made of
    [min(len(header) + 1, 80)] dashes, the newline being counted. *)
Theorem file_header_and_rule (repo_root status filepath : string)
  (output : list string) :
  let absolute_path := path_join w repo_root filepath in
  let header :=
    absolute_path +:+ " (" +:+ format_status status +:+ ") "
    +:+ fst (stats_of w cfg absolute_path) in
  text_entry w absolute_path status ->
  exists rule : string,
    fst (report_file w cfg repo_root status filepath output) =
      output ++ [NL +:+ header; rule] ++ body_of w cfg absolute_path ++ [""] /\
    rule = PyStr.repeat "-" (Nat.min (String.length header + 1) 80) /\
    String.length rule = Nat.min (String.length header + 1) 80.
Proof.
  intros absolute_path header Htext.
  exists (PyStr.repeat "-" (Nat.min (String.length header + 1) 80)).
  split; [| split; [reflexivity | apply length_repeat]].
  unfold absolute_path. rewrite report_file_text_entry by exact Htext.
  rewrite report_text_file_output. fold absolute_path.
  replace (String.length header + 1) with (S (String.length header)) by lia.
  reflexivity.
Qed.

(** C8: a file staged as deleted and absent from disk is not reported as
    not found; the loop body goes on to the statistics and the diff, as in
    the text-file part that an existing text file reaches. *)
Theorem deleted_file_is_diffed (repo_root filepath : string)
  (output : list string) :
  let absolute_path := path_join w repo_root filepath in
  path_exists w absolute_path = false ->
  let r := report_file w cfg repo_root "D" filepath output in
  r = (fst (report_text_file w cfg absolute_path "D" output),
       [Stdout (absolute_path +:+ NL); FsExists absolute_path;
        FsExists absolute_path; FsExists absolute_path]
       ++ snd (report_text_file w cfg absolute_path "D" output)) /\
  fst r <> output ++ [file_not_found_entry filepath "D"] /\
  In (Subprocess (diff_argv absolute_path (context_lines cfg))) (snd r) /\
  (include_stats cfg = true ->
   In (Subprocess (numstat_argv absolute_path)) (snd r)).
Proof.
  intros absolute_path Hmissing r.
  assert (Hr : r =
    (fst (report_text_file w cfg absolute_path "D" output),
     [Stdout (absolute_path +:+ NL); FsExists absolute_path;
      FsExists absolute_path; FsExists absolute_path]
     ++ snd (report_text_file w cfg absolute_path "D" output))).
  { unfold r, absolute_path.
    apply report_file_missing_deleted; [exact Hmissing | reflexivity]. }
  split; [exact Hr |]. rewrite Hr. cbn [fst snd].
  rewrite report_text_file_output, report_text_file_trace.
  split; [| split].
  - intros Heq. apply (f_equal (@length string)) in Heq.
    rewrite !length_app in Heq. simpl in Heq. lia.
  - apply in_or_app. right. apply in_or_app. right. simpl. auto.
  - intros Hstats. apply in_or_app. right. apply in_or_app. left.
    unfold stats_of. rewrite Hstats, get_file_stats_trace. simpl. auto.
Qed.

(** C9: the exception to the not-found branch is a substring test; any
    status with a [D] somewhere in it, such as [AD] or [RD], keeps an
    absent path out of that branch and sends it to the statistics and the
    diff. *)
Theorem deleted_substring_skips_not_found (repo_root status filepath : string)
  (output : list string) :
  let absolute_path := path_join w repo_root filepath in
  PyStr.contains "D" status = true ->
  path_exists w absolute_path = false ->
  let r := report_file w cfg repo_root status filepath output in
  fst r = fst (report_text_file w cfg absolute_path status output) /\
  fst r <> output ++ [file_not_found_entry filepath status] /\
  In (Subprocess (diff_argv absolute_path (context_lines cfg))) (snd r) /\
  (include_stats cfg = true ->
   In (Subprocess (numstat_argv absolute_path)) (snd r)).
Proof.
  intros absolute_path Hdeleted Hmissing r.
  unfold r, absolute_path.
  rewrite report_file_missing_deleted by assumption.
  fold absolute_path. cbn [fst snd].
  rewrite report_text_file_output, report_text_file_trace.
  split; [reflexivity | split; [| split]].
  - intros Heq. apply (f_equal (@length string)) in Heq.
    rewrite !length_app in Heq. simpl in Heq. lia.
  - apply in_or_app. right. apply in_or_app. right. simpl. auto.
  - intros Hstats. apply in_or_app. right. apply in_or_app. left.
    unfold stats_of. rewrite Hstats, get_file_stats_trace. simpl. auto.
Qed.

End FileBlock.

(** ** The per-file loop *)

Section FileLoop.

Context (w : World) (cfg : Config) (repo_root : string).

Lemma report_loop_first_occurrences (changes : list (string * string))
  (seen : gset string) (output : list string) :
  report_loop w cfg repo_root changes seen output =
  report_each w cfg repo_root (first_occurrences seen changes) output.
Proof.
  revert seen output.
  induction changes as [| [status filepath] rest IH]; intros seen output.
  - reflexivity.
  - simpl. destruct (decide (filepath ∈ seen)) as [Hseen | Hnew].
    + apply IH.
    + unfold report_each. simpl. unfold bind. rewrite IH. reflexivity.
Qed.

Lemma first_occurrences_fresh (changes : list (string * string))
  (seen : gset string) (status filepath : string) :
  In (status, filepath) (first_occurrences seen changes) -> filepath ∉ seen.
Proof.
  revert seen.
  induction changes as [| [status0 filepath0] rest IH]; intros seen; simpl.
  - intros [].
  - destruct (decide (filepath0 ∈ seen)) as [Hseen | Hnew].
    + apply IH.
    + intros [Heq | Hin].
      * injection Heq as _ <-. exact Hnew.
      * apply IH in Hin. intros Hmem. apply Hin.
        apply elem_of_union. left. exact Hmem.
Qed.

Lemma first_occurrences_NoDup (changes : list (string * string))
  (seen : gset string) :
  NoDup (map snd (first_occurrences seen changes)).
Proof.
  revert seen.
  induction changes as [| [status filepath] rest IH]; intros seen; simpl.
  - constructor.
  - destruct (decide (filepath ∈ seen)) as [Hseen | Hnew]; [apply IH |].
    simpl. constructor; [| apply IH].
    intros Hin. apply list_elem_of_In, in_map_iff in Hin.
    destruct Hin as ([status' filepath'] & Heq & Hin). simpl in Heq. subst.
    apply first_occurrences_fresh in Hin. apply Hin.
    apply elem_of_union. right. apply elem_of_singleton. reflexivity.
Qed.

Lemma first_occurrences_sublist (changes : list (string * string))
  (seen : gset string) :
  sublist (first_occurrences seen changes) changes.
Proof.
  revert seen.
  induction changes as [| [status filepath] rest IH]; intros seen; simpl.
  - constructor.
  - destruct (decide (filepath ∈ seen)).
    + apply sublist_cons, IH.
    + apply sublist_skip, IH.
Qed.

Lemma first_occurrences_spec (changes : list (string * string))
  (seen : gset string) (status filepath : string) :
  In (status, filepath) (first_occurrences seen changes) <->
  (filepath ∉ seen) /\
  exists pre post,
    changes = pre ++ (status, filepath) :: post /\
    ~ In filepath (map snd pre).
Proof.
  revert seen.
  induction changes as [| [status0 filepath0] rest IH]; intros seen; simpl.
  - split; [intros [] |].
    intros (_ & pre & post & Heq & _). destruct pre; discriminate.
  - destruct (decide (filepath0 ∈ seen)) as [Hseen | Hnew].
    + rewrite IH. split.
      * intros (Hfresh & pre & post & -> & Hpre). split; [exact Hfresh |].
        exists ((status0, filepath0) :: pre), post. split; [reflexivity |].
        simpl. intros [-> | Hin]; [exact (Hfresh Hseen) | exact (Hpre Hin)].
      * intros (Hfresh & pre & post & Heq & Hpre). split; [exact Hfresh |].
        destruct pre as [| entry pre].
        -- simpl in Heq. injection Heq as _ -> _. destruct (Hfresh Hseen).
        -- simpl in Heq. injection Heq as <- ->.
           exists pre, post. split; [reflexivity |].
           intros Hin. apply Hpre. simpl. right. exact Hin.
    + simpl. rewrite IH. split.
      * intros [Heq | (Hfresh & pre & post & -> & Hpre)].
        -- injection Heq as <- <-. split; [exact Hnew |].
           exists [], rest. split; [reflexivity | intros []].
        -- split.
           ++ intros Hmem. apply Hfresh, elem_of_union. left. exact Hmem.
           ++ exists ((status0, filepath0) :: pre), post.
              split; [reflexivity |].
              simpl. intros [-> | Hin]; [| exact (Hpre Hin)].
              apply Hfresh, elem_of_union. right.
              apply elem_of_singleton. reflexivity.
      * intros (Hfresh & pre & post & Heq & Hpre).
        destruct pre as [| entry pre].
        -- simpl in Heq. injection Heq as -> -> _. left. reflexivity.
        -- simpl in Heq. injection Heq as <- ->. right. split.
           ++ intros Hmem. apply elem_of_union in Hmem as [Hmem | Hmem].
              ** exact (Hfresh Hmem).
              ** apply elem_of_singleton in Hmem. subst filepath.
                 apply Hpre. simpl. left. reflexivity.
           ++ exists pre, post. split; [reflexivity |].
              intros Hin. apply Hpre. simpl. right. exact Hin.
Qed.

Lemma report_text_file_appends (absolute_path status : string) :
  exists block trace,
    forall output,
      report_text_file w cfg absolute_path status output =
      (output ++ block, trace).
Proof.
  eexists. eexists. intros output. apply injective_projections.
  - cbn [fst]. apply report_text_file_output.
  - cbn [snd]. apply report_text_file_trace.
Qed.

Lemma report_file_appends (status filepath : string) :
  exists block trace,
    forall output,
      report_file w cfg repo_root status filepath output =
      (output ++ block, trace).
Proof.
  destruct (report_text_file_appends (path_join w repo_root filepath) status)
    as (text_block & text_trace & Htext).
  unfold report_file, and_then, fs_exists, fs_is_dir, bind, emit, ret.
  cbn [fst snd].
  destruct (path_exists w (path_join w repo_root filepath));
    cbn [negb fst snd].
  - destruct (path_is_dir w (path_join w repo_root filepath)); cbn [fst snd].
    + eexists. eexists. intros output. reflexivity.
    + destruct (fst (is_binary_file w (path_join w repo_root filepath)));
        cbn [fst snd].
      * eexists. eexists. intros output. reflexivity.
      * eexists. eexists. intros output. rewrite Htext. cbn [fst snd]. reflexivity.
  - destruct (PyStr.contains "D" status); cbn [negb fst snd].
    + eexists. eexists. intros output. rewrite Htext. cbn [fst snd]. reflexivity.
    + eexists. eexists. intros output. reflexivity.
Qed.

Lemma report_file_block (status filepath : string) (output : list string) :
  report_file w cfg repo_root status filepath output =
  (output ++ file_block w cfg repo_root (status, filepath),
   file_events w cfg repo_root (status, filepath)).
Proof.
  destruct (report_file_appends status filepath) as (block & trace & Hfile).
  unfold file_block, file_events. cbn [fst snd].
  rewrite (Hfile output), (Hfile []). reflexivity.
Qed.

Lemma file_block_head (status filepath : string) :
  exists entry rest,
    file_block w cfg repo_root (status, filepath) = entry :: rest /\
    In entry (block_heads w cfg repo_root (status, filepath)).
Proof.
  unfold file_block, block_heads. cbn [fst snd].
  assert (Htext :
    fst (report_text_file w cfg (path_join w repo_root filepath) status []) =
    (NL +:+ header_text (path_join w repo_root filepath) status
              (fst (stats_of w cfg (path_join w repo_root filepath))))
    :: PyStr.repeat "-"
         (Nat.min
            (String.length
               (NL +:+ header_text (path_join w repo_root filepath) status
                         (fst (stats_of w cfg
                                 (path_join w repo_root filepath)))))
            80)
       :: body_of w cfg (path_join w repo_root filepath) ++ [""]).
  { rewrite report_text_file_output. reflexivity. }
  unfold report_file, and_then, fs_exists, fs_is_dir, bind, emit, ret.
  cbn [fst snd].
  destruct (path_exists w (path_join w repo_root filepath));
    cbn [negb fst snd].
  - destruct (path_is_dir w (path_join w repo_root filepath)); cbn [fst snd].
    + eexists. eexists. split; [reflexivity |]. right. left. reflexivity.
    + destruct (fst (is_binary_file w (path_join w repo_root filepath)));
        cbn [fst snd].
      * eexists. eexists. split; [reflexivity |].
        right. right. left. reflexivity.
      * rewrite Htext. eexists. eexists. split; [reflexivity |].
        right. right. right. left. reflexivity.
  - destruct (PyStr.contains "D" status); cbn [negb fst snd].
    + rewrite Htext. eexists. eexists. split; [reflexivity |].
      right. right. right. left. reflexivity.
    + eexists. eexists. split; [reflexivity |]. left. reflexivity.
Qed.

Lemma report_each_blocks (entries : list (string * string))
  (output : list string) :
  report_each w cfg repo_root entries output =
  (output ++ concat (map (file_block w cfg repo_root) entries),
   concat (map (file_events w cfg repo_root) entries)).
Proof.
  revert output. induction entries as [| [status filepath] rest IH];
    intros output.
  - unfold report_each. simpl. rewrite app_nil_r. reflexivity.
  - unfold report_each in *. cbn [for_each]. unfold bind.
    rewrite report_file_block. cbn [fst snd]. rewrite IH. cbn [fst snd].
    cbn [map concat]. rewrite app_assoc. reflexivity.
Qed.

(** C7: the loop runs its body once for each path, on the first entry that
    names it, and not at all on the later entries of that path. What it
    adds to the report is one block for each first occurrence, in order,
    each block opening with an entry that names that path and the label of
    that occurrence's status; what it runs is what those blocks take, and
    nothing for the later entries. *)
Theorem duplicates_reported_once (changes : list (string * string))
  (output : list string) :
  exists firsts : list (string * string),
    report_loop w cfg repo_root changes ∅ output =
      report_each w cfg repo_root firsts output /\
    report_loop w cfg repo_root changes ∅ output =
      (output ++ concat (map (file_block w cfg repo_root) firsts),
       concat (map (file_events w cfg repo_root) firsts)) /\
    (forall change : string * string,
       In change firsts ->
       exists entry rest,
         file_block w cfg repo_root change = entry :: rest /\
         In entry (block_heads w cfg repo_root change)) /\
    sublist firsts changes /\
    NoDup (map snd firsts) /\
    (forall status filepath : string,
       In (status, filepath) firsts <->
       exists pre post,
         changes = pre ++ (status, filepath) :: post /\
         ~ In filepath (map snd pre)).
Proof.
  exists (first_occurrences ∅ changes).
  split; [apply report_loop_first_occurrences |].
  split; [rewrite report_loop_first_occurrences; apply report_each_blocks |].
  split; [intros [status filepath] _; apply file_block_head |].
  split; [apply first_occurrences_sublist |].
  split; [apply first_occurrences_NoDup |].
  intros status filepath. split.
  - intros Hin. apply first_occurrences_spec in Hin. tauto.
  - intros Hfirst. apply first_occurrences_spec. split; [| exact Hfirst].
    apply not_elem_of_empty.
Qed.

End FileLoop.

(** ** The whole report *)

Lemma get_repo_root_trace (w : World) :
  snd (get_repo_root w) = [Subprocess rev_parse_argv].
Proof.
  unfold get_repo_root. simpl.
  destruct (check_output w rev_parse_argv); reflexivity.
Qed.

(** C4: when the lookup of the repository root gives no root, the report is
    the error text and the lookup is the only thing that was run: no
    listing of the staged changes, no filter, no per-file work. *)
Theorem not_in_repository (w : World) (cfg : Config) :
  fst (get_repo_root w) = None ->
  get_staged_diff w cfg =
  (inr "Error: Not in a git repository.", [Subprocess rev_parse_argv]).
Proof.
  intros Hroot. unfold get_staged_diff, bind.
  rewrite Hroot, get_repo_root_trace. reflexivity.
Qed.

Lemma not_in_repository_witness :
  get_staged_diff no_repo_world demo_config =
  (inr "Error: Not in a git repository.", [Subprocess rev_parse_argv]).
Proof.
  apply (not_in_repository no_repo_world demo_config). reflexivity.
Defined.

(** ** Runs in the small world *)

Lemma demo_text_entry : text_entry demo_world "/r/a.py" "M".
Proof. left. repeat split; reflexivity. Qed.

(** C3, as stated, fails: the header line of [a.py] has 26 characters and
    the rule under it has 27. *)
Lemma rule_longer_than_header_line :
  text_entry demo_world "/r/a.py" "M" /\
  fst (report_file demo_world demo_config "/r" "M" "a.py" []) =
    [NL +:+ "/r/a.py (Modified) (+1/-1)"; "---------------------------";
     "--- a/a.py"; "+++ b/a.py"; "@@ -1 +1 @@"; "-x"; "+y"; ""] /\
  String.length "---------------------------" <>
    Nat.min (String.length "/r/a.py (Modified) (+1/-1)") 80.
Proof.
  split; [exact demo_text_entry |].
  split; [reflexivity |]. simpl. lia.
Qed.

Lemma file_header_and_rule_witness :
  exists rule : string,
    nth_error (fst (report_file demo_world demo_config "/r" "M" "a.py" [])) 1
      = Some rule /\
    String.length rule = 27.
Proof.
  destruct (file_header_and_rule demo_world demo_config "/r" "M" "a.py" []
              demo_text_entry) as (rule & Hout & _ & Hlength).
  exists rule. split.
  - rewrite Hout. reflexivity.
  - rewrite Hlength. reflexivity.
Defined.

Lemma deleted_file_is_diffed_witness :
  In (Subprocess (diff_argv "/r/gone.txt" 3))
     (snd (report_file demo_world demo_config "/r" "D" "gone.txt" [])) /\
  fst (report_file demo_world demo_config "/r" "D" "gone.txt" []) <>
    [file_not_found_entry "gone.txt" "D"].
Proof.
  destruct (deleted_file_is_diffed demo_world demo_config "/r" "gone.txt" []
              eq_refl) as (_ & Hfound & Hdiff & _).
  split; [exact Hdiff | exact Hfound].
Defined.

Lemma deleted_substring_skips_not_found_witness :
  In (Subprocess (diff_argv "/r/gone.txt" 3))
     (snd (report_file demo_world demo_config "/r" "AD" "gone.txt" [])) /\
  fst (report_file demo_world demo_config "/r" "AD" "gone.txt" []) <>
    [file_not_found_entry "gone.txt" "AD"].
Proof.
  destruct (deleted_substring_skips_not_found demo_world demo_config "/r"
              "AD" "gone.txt" [] eq_refl eq_refl) as (_ & Hfound & Hdiff & _).
  split; [exact Hdiff | exact Hfound].
Defined.

(** A path listed twice: the second entry of [a.py] adds nothing, neither
    to the report nor to the trace. *)
Example duplicate_entry_skipped :
  report_loop demo_world demo_config "/r"
    [("M", "a.py"); ("D", "gone.txt"); ("R100", "a.py")] ∅ [] =
  report_each demo_world demo_config "/r"
    [("M", "a.py"); ("D", "gone.txt")] [].
Proof. vm_compute. reflexivity. Qed.


Example demo_report :
  fst (get_staged_diff demo_world demo_config) =
  inr (PyStr.join NL
         ["=== Staged Changes Summary ==="; NL +:+ "Total files: 2";
          "==================================================";
          NL +:+ "/r/a.py (Modified) (+1/-1)"; "---------------------------";
          "--- a/a.py"; "+++ b/a.py"; "@@ -1 +1 @@"; "-x"; "+y"; "";
          NL +:+ "/r/gone.txt (Deleted) "; "-----------------------";
          "No diff available."; ""]).
Proof. vm_compute. reflexivity. Qed.

(** * Further properties of the program *)

(** ** More on the truncation heuristic *)

Lemma truncate_diff_budget_12 (diff_lines : list string) (max_lines : Z) :
  (12 <= max_lines)%Z ->
  (max_lines < Z.of_nat (length diff_lines))%Z ->
  truncate_diff diff_lines max_lines =
  take (Z.to_nat (max_lines - 1)) diff_lines ++ [truncation_marker max_lines].
Proof.
  intros Hbudget Hgt. rewrite (truncate_diff_large _ _ Hgt).
  rewrite length_take, Nat.min_l by lia. unfold slice_content.
  destruct (Z.gtb_spec (max_lines - Z.of_nat 10 - 1) 0) as [_ | Hle]; [| lia].
  rewrite app_assoc, take_take_drop. do 2 f_equal. lia.
Qed.

Lemma length_truncate_diff (diff_lines : list string) (max_lines : Z) :
  (12 <= max_lines)%Z ->
  (Z.of_nat (length (truncate_diff diff_lines max_lines)) <= max_lines)%Z.
Proof.
  intros Hbudget.
  destruct (Z.le_gt_cases (Z.of_nat (length diff_lines)) max_lines)
    as [Hle | Hgt].
  - rewrite truncate_diff_small by exact Hle. exact Hle.
  - rewrite truncate_diff_budget_12 by assumption.
    rewrite length_app, length_take. simpl. lia.
Qed.

(** X1: whatever the lines are, diff markers or not, the scan of an
    oversized diff puts its first ten lines in the header and all the
    others, in order, in the content. *)
Theorem header_is_first_ten_lines
  (diff_lines header_lines content_lines : list string) :
  split_diff diff_lines 0 diff_lines [] [] = (header_lines, content_lines) ->
  header_lines = take 10 diff_lines /\
  content_lines = drop 10 diff_lines /\
  header_lines ++ content_lines = diff_lines /\
  length header_lines = Nat.min 10 (length diff_lines).
Proof.
  rewrite split_diff_spec. intros Hsplit. injection Hsplit as <- <-.
  repeat split; [apply take_drop | apply length_take].
Qed.

Lemma header_is_first_ten_lines_witness :
  ["@@ a"; "x"; "+++ b"] = take 10 ["@@ a"; "x"; "+++ b"] /\
  ([] : list string) = drop 10 ["@@ a"; "x"; "+++ b"].
Proof.
  destruct (header_is_first_ten_lines ["@@ a"; "x"; "+++ b"]
              ["@@ a"; "x"; "+++ b"] [] eq_refl) as (Hh & Hc & _).
  split; [exact Hh | exact Hc].
Defined.

(** X2: with a budget of at least 12, a longer diff is cut to its first
    [max_lines - 1] lines followed by the marker: exactly [max_lines]
    lines. *)
Theorem truncate_diff_keeps_first_lines (diff_lines : list string)
  (max_lines : Z) :
  (12 <= max_lines)%Z ->
  (max_lines < Z.of_nat (length diff_lines))%Z ->
  truncate_diff diff_lines max_lines =
    take (Z.to_nat (max_lines - 1)) diff_lines
    ++ [truncation_marker max_lines] /\
  Z.of_nat (length (truncate_diff diff_lines max_lines)) = max_lines.
Proof.
  intros Hbudget Hgt. rewrite truncate_diff_budget_12 by assumption.
  split; [reflexivity |].
  rewrite length_app, length_take. simpl. lia.
Qed.

Lemma truncate_diff_keeps_first_lines_witness :
  truncate_diff (replicate 20 "x") 12 =
  replicate 11 "x" ++ [truncation_marker 12].
Proof.
  apply (truncate_diff_keeps_first_lines (replicate 20 "x") 12);
    simpl; lia.
Defined.

Lemma truncate_diff_uncut (diff_lines : list string) (max_lines : Z) :
  (max_lines <= 11)%Z ->
  (max_lines < Z.of_nat (length diff_lines))%Z ->
  truncate_diff diff_lines max_lines =
  diff_lines ++ [truncation_marker max_lines].
Proof.
  intros Hbudget Hgt. rewrite (truncate_diff_large _ _ Hgt).
  rewrite slice_content_nonpositive by (rewrite length_take; lia).
  rewrite app_assoc, take_drop. reflexivity.
Qed.

(** X3: with a budget of at most 11, zero and negative budgets included, a
    longer diff is not cut at all: every line of it is returned, followed
    by the marker, so that more lines come out than the diff has. *)
Theorem truncate_diff_small_budget_cuts_nothing (diff_lines : list string)
  (max_lines : Z) :
  (max_lines <= 11)%Z ->
  (max_lines < Z.of_nat (length diff_lines))%Z ->
  truncate_diff diff_lines max_lines =
    diff_lines ++ [truncation_marker max_lines] /\
  length (truncate_diff diff_lines max_lines) = S (length diff_lines).
Proof.
  intros Hbudget Hgt. rewrite truncate_diff_uncut by assumption.
  split; [reflexivity |]. rewrite length_app. simpl. lia.
Qed.

Lemma truncate_diff_small_budget_cuts_nothing_witness :
  truncate_diff (replicate 3 "x") 0 =
  replicate 3 "x" ++ [truncation_marker 0].
Proof.
  apply (truncate_diff_small_budget_cuts_nothing (replicate 3 "x") 0);
    simpl; lia.
Defined.

(** ** More on the per-file block *)

Section FileBlockMore.

Context (w : World) (cfg : Config).

(** X4: when the diff subprocess fails, or prints nothing under a budget
    that is not negative, the block of a text file is its header, its rule,
    the line "No diff available." and the closing empty line. *)
Theorem missing_diff_is_announced (absolute_path status : string)
  (output : list string) :
  (exists e,
     check_output w (diff_argv absolute_path (context_lines cfg)) = inl e) \/
  (check_output w (diff_argv absolute_path (context_lines cfg)) = inr "" /\
   (0 <= max_lines_per_file cfg)%Z) ->
  fst (get_file_diff w absolute_path (max_lines_per_file cfg)
         (context_lines cfg)) = [] /\
  exists header rule : string,
    fst (report_text_file w cfg absolute_path status output) =
    output ++ [header; rule; "No diff available."; ""].
Proof.
  intros Hdiff.
  assert (Hnone : fst (get_file_diff w absolute_path (max_lines_per_file cfg)
                         (context_lines cfg)) = []).
  { unfold get_file_diff, bind. cbn [fst snd emit].
    destruct Hdiff as [[e ->] | [-> Hbudget]]; [reflexivity |].
    cbn [ret fst]. apply truncate_diff_small. simpl. exact Hbudget. }
  split; [exact Hnone |].
  rewrite report_text_file_output. unfold body_of. rewrite Hnone.
  eexists. eexists. reflexivity.
Qed.

(** X5: with a negative budget even an empty diff counts as too long: the
    marker is all that is returned, and it stands where "No diff
    available." would. *)
Theorem empty_diff_negative_budget (absolute_path : string) :
  check_output w (diff_argv absolute_path (context_lines cfg)) = inr "" ->
  (max_lines_per_file cfg < 0)%Z ->
  fst (get_file_diff w absolute_path (max_lines_per_file cfg)
         (context_lines cfg)) = [truncation_marker (max_lines_per_file cfg)].
Proof.
  intros Hout Hbudget. unfold get_file_diff, bind. cbn [fst snd emit].
  rewrite Hout. cbn [ret fst].
  rewrite truncate_diff_uncut by (simpl; lia). reflexivity.
Qed.

(** X6: with a budget of at least 12, the block of a text file adds at most
    [max_lines_per_file + 3] entries to the output: the header, the rule,
    the diff within its budget, and the closing empty line. *)
Theorem text_block_size (absolute_path status : string)
  (output : list string) :
  (12 <= max_lines_per_file cfg)%Z ->
  (Z.of_nat (length (fst (report_text_file w cfg absolute_path status output)))
   <= Z.of_nat (length output) + max_lines_per_file cfg + 3)%Z.
Proof.
  intros Hbudget. rewrite report_text_file_output.
  assert (Hbody : (Z.of_nat (length (body_of w cfg absolute_path))
                   <= max_lines_per_file cfg)%Z).
  { unfold body_of.
    destruct (fst (get_file_diff w absolute_path (max_lines_per_file cfg)
                     (context_lines cfg))) as [| line lines] eqn:Hdiff.
    - simpl. lia.
    - rewrite <- Hdiff. unfold get_file_diff, bind. cbn [fst snd emit].
      destruct (check_output w
                  (diff_argv absolute_path (context_lines cfg)));
        cbn [ret fst]; [simpl; lia |].
      apply length_truncate_diff. exact Hbudget. }
  rewrite !length_app. simpl. lia.
Qed.

(** X7: a path that is not on disk, under a status without a [D], gets the
    single entry "File not found"; the file is neither probed further nor
    given to [git]. *)
Theorem missing_file_reported (repo_root status filepath : string)
  (output : list string) :
  let absolute_path := path_join w repo_root filepath in
  path_exists w absolute_path = false ->
  PyStr.contains "D" status = false ->
  report_file w cfg repo_root status filepath output =
  (output ++ [file_not_found_entry filepath status],
   [Stdout (absolute_path +:+ NL); FsExists absolute_path]).
Proof.
  intros absolute_path Hmissing Hstatus.
  unfold report_file, and_then, fs_exists, bind, emit, ret. cbn [fst snd].
  fold absolute_path. rewrite Hmissing, Hstatus. reflexivity.
Qed.

(** X8: a directory gets the single entry "Directory <label>: <path>"; it
    is not read and nothing of it is given to [git]. *)
Theorem directory_reported (repo_root status filepath : string)
  (output : list string) :
  let absolute_path := path_join w repo_root filepath in
  path_exists w absolute_path = true ->
  path_is_dir w absolute_path = true ->
  report_file w cfg repo_root status filepath output =
  (output ++ [NL +:+ "Directory " +:+ format_status status +:+ ": "
              +:+ filepath],
   [Stdout (absolute_path +:+ NL); FsExists absolute_path;
    FsExists absolute_path; FsIsDir absolute_path]).
Proof.
  intros absolute_path Hexists Hdir.
  unfold report_file, and_then, fs_exists, fs_is_dir, bind, emit, ret.
  cbn [fst snd]. fold absolute_path.
  rewrite Hexists. cbn [negb fst snd app]. rewrite Hdir. reflexivity.
Qed.

Lemma is_binary_file_no_subprocess (p : string) (argv : list string) :
  ~ In (Subprocess argv) (snd (is_binary_file w p)).
Proof.
  unfold is_binary_file, bind, emit, ret. cbn [fst snd].
  destruct (read_bytes w p) as [chunk |]; cbn [fst snd app].
  - destruct (PyStr.contains "000" chunk); cbn [fst snd app];
      simpl; intuition discriminate.
  - simpl. intuition discriminate.
Qed.

Lemma numstat_is_not_diff (p q : string) (context : Z) :
  numstat_argv p <> diff_argv q context.
Proof. unfold numstat_argv, diff_argv. simpl. intros H. discriminate H. Qed.

(** X9: a binary file gets the single entry "Binary file <label>: <path>
    <stats>", its statistics being asked for the path as staged; whatever
    the budget, no diff is fetched for it. *)
Theorem binary_file_reported (repo_root status filepath : string)
  (output : list string) :
  let absolute_path := path_join w repo_root filepath in
  path_exists w absolute_path = true ->
  path_is_dir w absolute_path = false ->
  fst (is_binary_file w absolute_path) = true ->
  let r := report_file w cfg repo_root status filepath output in
  fst r =
    output ++ [NL +:+ "Binary file " +:+ format_status status +:+ ": "
               +:+ filepath +:+ " " +:+ fst (stats_of w cfg filepath)] /\
  forall (path : string) (context : Z),
    ~ In (Subprocess (diff_argv path context)) (snd r).
Proof.
  intros absolute_path Hexists Hdir Hbinary r.
  assert (Hr : r =
    (output ++ [NL +:+ "Binary file " +:+ format_status status +:+ ": "
                +:+ filepath +:+ " " +:+ fst (stats_of w cfg filepath)],
     [Stdout (absolute_path +:+ NL); FsExists absolute_path;
      FsExists absolute_path; FsIsDir absolute_path; FsExists absolute_path]
     ++ snd (is_binary_file w absolute_path)
     ++ snd (stats_of w cfg filepath))).
  { unfold r, report_file, and_then, fs_exists, fs_is_dir, bind, emit, ret.
    cbn [fst snd]. fold absolute_path.
    rewrite Hexists. cbn [negb fst snd app]. rewrite Hdir. cbn [fst snd app].
    rewrite Hbinary. cbn [fst snd app]. unfold stats_of.
    rewrite app_nil_r. reflexivity. }
  rewrite Hr. cbn [fst snd]. split; [reflexivity |].
  intros path context Hin.
  apply in_app_or in Hin as [Hin | Hin];
    [simpl in Hin; intuition discriminate |].
  apply in_app_or in Hin as [Hin | Hin].
  - exact (is_binary_file_no_subprocess _ _ Hin).
  - unfold stats_of in Hin. destruct (include_stats cfg).
    + rewrite get_file_stats_trace in Hin. simpl in Hin.
      destruct Hin as [Heq | []].
      apply (numstat_is_not_diff filepath path context). congruence.
    + destruct Hin.
Qed.

(** X10: a file is taken for text only when its first bytes can be read,
    hold no null byte, and the text read succeeds; a null byte or a failed
    open settles the matter without the text read being tried. *)
Theorem is_binary_file_spec (p : string) :
  (fst (is_binary_file w p) = false <->
   exists chunk,
     read_bytes w p = Some chunk /\
     PyStr.contains "000" chunk = false /\
     read_text_ok w p = true) /\
  (read_bytes w p = None -> is_binary_file w p = (true, [FsOpenBytes p])) /\
  (forall chunk,
     read_bytes w p = Some chunk ->
     PyStr.contains "000" chunk = true ->
     is_binary_file w p = (true, [FsOpenBytes p])).
Proof.
  unfold is_binary_file, bind, emit, ret. cbn [fst snd].
  split; [| split].
  - destruct (read_bytes w p) as [chunk |]; cbn [fst].
    + destruct (PyStr.contains "000" chunk) eqn:Hnull; cbn [fst].
      * split; [discriminate |].
        intros (chunk' & Heq & Hclean & _). injection Heq as <-. congruence.
      * rewrite negb_false_iff. split.
        -- intros Htext. exists chunk. auto.
        -- intros (_ & _ & _ & Htext). exact Htext.
    + split; [discriminate |]. intros (chunk & Heq & _). discriminate.
  - intros ->. reflexivity.
  - intros chunk -> ->. reflexivity.
Qed.

End FileBlockMore.

(** ** The statistics of a file *)

Lemma append_cons (c : ascii) (s1 s2 : string) :
  String c s1 +:+ s2 = String c (s1 +:+ s2).
Proof. reflexivity. Qed.

Lemma append_empty_r (s : string) : s +:+ "" = s.
Proof.
  induction s as [| c s IH]; [reflexivity |].
  rewrite append_cons, IH. reflexivity.
Qed.

Lemma lstrip_blank (s : string) : blank s = true -> PyStr.lstrip s = "".
Proof.
  induction s as [| c s IH]; simpl; [reflexivity |].
  destruct (PyStr.isspace c); simpl; [exact IH | discriminate].
Qed.

Lemma lstrip_solid (s1 s2 : string) :
  solid s1 = true -> s1 <> "" -> PyStr.lstrip (s1 +:+ s2) = s1 +:+ s2.
Proof.
  destruct s1 as [| c s1]; [congruence |]. simpl. intros Hsolid _.
  rewrite append_cons. simpl.
  destruct (PyStr.isspace c); [discriminate | reflexivity].
Qed.

Lemma rstrip_solid (s : string) : solid s = true -> PyStr.rstrip s = s.
Proof.
  induction s as [| c s IH]; simpl; [reflexivity |].
  destruct (PyStr.isspace c) eqn:Hc; simpl; [discriminate |].
  intros Hs. rewrite (IH Hs). destruct s; reflexivity.
Qed.

Lemma rstrip_app (s1 s2 : string) :
  PyStr.rstrip (s1 +:+ s2) =
  match PyStr.rstrip s2 with
  | EmptyString => PyStr.rstrip s1
  | String d r => s1 +:+ String d r
  end.
Proof.
  induction s1 as [| c s1 IH].
  - change ("" +:+ s2) with s2. destruct (PyStr.rstrip s2); reflexivity.
  - rewrite append_cons. simpl. rewrite IH.
    destruct (PyStr.rstrip s2) as [| d r]; [reflexivity |].
    destruct s1; reflexivity.
Qed.

Lemma rstrip_after_solid (s1 s2 : string) :
  solid s1 = true ->
  PyStr.rstrip (s1 +:+ s2) = s1 +:+ PyStr.rstrip s2.
Proof.
  intros Hsolid. rewrite rstrip_app.
  destruct (PyStr.rstrip s2); [| reflexivity].
  rewrite append_empty_r. apply rstrip_solid, Hsolid.
Qed.

Lemma solid_no_tab (s : string) :
  solid s = true -> PyStr.contains TAB s = false.
Proof.
  induction s as [| c s IH]; simpl; [reflexivity |].
  destruct (PyStr.isspace c) eqn:Hc; simpl; [discriminate |].
  intros Hs. destruct (Ascii.eqb_spec c TAB) as [-> | _];
    [discriminate Hc | exact (IH Hs)].
Qed.

Lemma split_cons (sep : ascii) (s : string) :
  exists w ws, PyStr.split sep s = w :: ws.
Proof.
  destruct s as [| c s]; simpl; [eauto |].
  destruct (Ascii.eqb c sep); [eauto |].
  destruct (PyStr.split sep s); eauto.
Qed.

Lemma split_app (sep : ascii) (s1 s2 : string) :
  PyStr.contains sep s1 = false ->
  PyStr.split sep (s1 +:+ s2) =
  match PyStr.split sep s2 with
  | w :: ws => (s1 +:+ w) :: ws
  | [] => [s1]
  end.
Proof.
  induction s1 as [| c s1 IH].
  - intros _. change ("" +:+ s2) with s2.
    destruct (split_cons sep s2) as (w & ws & ->). reflexivity.
  - rewrite append_cons. simpl.
    destruct (Ascii.eqb c sep); [discriminate |]. intros Hs.
    rewrite (IH Hs). destruct (PyStr.split sep s2); reflexivity.
Qed.

Lemma split_field (sep : ascii) (s1 s2 : string) :
  PyStr.contains sep s1 = false ->
  PyStr.split sep (s1 +:+ String sep s2) = s1 :: PyStr.split sep s2.
Proof.
  intros Hs. rewrite (split_app sep s1 _ Hs). simpl.
  rewrite Ascii.eqb_refl, append_empty_r. reflexivity.
Qed.

Section FileStats.

Context (w : World).

Lemma strip_numstat (additions deletions rest : string) :
  solid additions = true -> additions <> "" ->
  solid deletions = true -> deletions <> "" ->
  PyStr.strip (additions +:+ String TAB (deletions +:+ rest)) =
  additions +:+ String TAB (deletions +:+ PyStr.rstrip rest).
Proof.
  intros Ha Hane Hd Hdne. unfold PyStr.strip.
  rewrite (lstrip_solid _ _ Ha Hane), rstrip_app.
  assert (Htail : PyStr.rstrip (String TAB (deletions +:+ rest)) =
                  String TAB (deletions +:+ PyStr.rstrip rest)).
  { simpl. rewrite (rstrip_after_solid _ _ Hd).
    destruct deletions as [| c d]; [congruence | reflexivity]. }
  rewrite Htail. reflexivity.
Qed.

(** X11: for a numstat line [<additions> TAB <deletions> TAB <path>], the
    two counts being non-empty and free of white space, the statistics are
    [(+<additions>/-<deletions>)], or the empty text as soon as one of the
    counts is the placeholder [-]. *)
Theorem get_file_stats_counts (filepath additions deletions path : string) :
  solid additions = true -> additions <> "" ->
  solid deletions = true -> deletions <> "" ->
  check_output w (numstat_argv filepath) =
    inr (additions +:+ String TAB (deletions +:+ String TAB (path +:+ NL))) ->
  fst (get_file_stats w filepath) =
  if String.eqb additions "-" || String.eqb deletions "-" then ""
  else "(+" +:+ additions +:+ "/-" +:+ deletions +:+ ")".
Proof.
  intros Ha Hane Hd Hdne Hout.
  unfold get_file_stats, bind. cbn [fst snd emit]. rewrite Hout.
  rewrite (strip_numstat _ _ _ Ha Hane Hd Hdne).
  assert (Hne : String.eqb
                  (additions +:+ String TAB
                     (deletions +:+ PyStr.rstrip (String TAB (path +:+ NL))))
                  "" = false).
  { destruct additions; [congruence | reflexivity]. }
  rewrite Hne. rewrite (split_field TAB additions _ (solid_no_tab _ Ha)).
  assert (Hsplit : exists fields,
    PyStr.split TAB (deletions +:+ PyStr.rstrip (String TAB (path +:+ NL)))
    = deletions :: fields).
  { simpl. destruct (PyStr.rstrip (path +:+ NL)) as [| c r].
    - rewrite (split_app TAB deletions "" (solid_no_tab _ Hd)). simpl.
      rewrite append_empty_r. eauto.
    - rewrite (split_field TAB deletions _ (solid_no_tab _ Hd)). eauto. }
  destruct Hsplit as [fields ->].
  destruct (String.eqb additions "-"), (String.eqb deletions "-");
    reflexivity.
Qed.

(** X12: when the numstat subprocess fails, or prints nothing but white
    space, the statistics are the empty text. *)
Theorem get_file_stats_nothing (filepath : string) :
  (exists e, check_output w (numstat_argv filepath) = inl e) \/
  (exists out,
     check_output w (numstat_argv filepath) = inr out /\ blank out = true) ->
  get_file_stats w filepath = ("", [Subprocess (numstat_argv filepath)]).
Proof.
  intros [[e He] | (out & Hout & Hblank)];
    unfold get_file_stats, bind; cbn [fst snd emit].
  - rewrite He. reflexivity.
  - rewrite Hout. unfold PyStr.strip. rewrite (lstrip_blank _ Hblank).
    reflexivity.
Qed.

End FileStats.

(** ** The list of staged changes *)

Lemma parse_name_status_acc (lines : list string)
  (changes : list (string * string)) :
  parse_name_status lines changes = changes ++ parse_name_status lines [].
Proof.
  revert changes. induction lines as [| line rest IH]; intros changes; simpl.
  - rewrite app_nil_r. reflexivity.
  - destruct (String.eqb (PyStr.strip line) ""); [apply IH |].
    destruct (PyStr.split1 TAB line) as [| status [| filepath fields]];
      try apply IH.
    rewrite (IH (changes ++ [(status, filepath)])), (IH [(status, filepath)]).
    rewrite <- app_assoc. reflexivity.
Qed.

Lemma parse_name_status_app (lines1 lines2 : list string) :
  parse_name_status (lines1 ++ lines2) [] =
  parse_name_status lines1 [] ++ parse_name_status lines2 [].
Proof.
  induction lines1 as [| line rest IH]; simpl; [reflexivity |].
  destruct (String.eqb (PyStr.strip line) ""); [exact IH |].
  destruct (PyStr.split1 TAB line) as [| status [| filepath fields]];
    try exact IH.
  rewrite (parse_name_status_acc (rest ++ lines2) [(status, filepath)]).
  rewrite (parse_name_status_acc rest [(status, filepath)]).
  rewrite IH, app_assoc. reflexivity.
Qed.

Lemma split1_field (sep : ascii) (s1 s2 : string) :
  PyStr.contains sep s1 = false ->
  PyStr.split1 sep (s1 +:+ String sep s2) = [s1; s2].
Proof.
  induction s1 as [| c s1 IH].
  - intros _. change ("" +:+ String sep s2) with (String sep s2). simpl.
    rewrite Ascii.eqb_refl. reflexivity.
  - rewrite append_cons. simpl.
    destruct (Ascii.eqb c sep); [discriminate |]. intros Hs.
    rewrite (IH Hs). reflexivity.
Qed.

Lemma split1_whole (sep : ascii) (s : string) :
  PyStr.contains sep s = false -> PyStr.split1 sep s = [s].
Proof.
  induction s as [| c s IH]; simpl; [reflexivity |].
  destruct (Ascii.eqb c sep); [discriminate |]. intros Hs.
  rewrite (IH Hs). reflexivity.
Qed.

(** X13: a line [<status> TAB <rest>] that is not blank, anywhere in the
    listing, gives the change [(status, rest)] at its place among the
    changes of the other lines: the path is all that follows the first
    tab, later tabs included, as on the lines of renames and copies. *)
Theorem name_status_line_parsed (before after : list string)
  (status rest : string) :
  PyStr.contains TAB status = false ->
  PyStr.strip (status +:+ String TAB rest) <> "" ->
  parse_name_status (before ++ (status +:+ String TAB rest) :: after) [] =
  parse_name_status before [] ++ (status, rest) :: parse_name_status after [].
Proof.
  intros Hstatus Hline. rewrite parse_name_status_app. f_equal. simpl.
  destruct (String.eqb_spec (PyStr.strip (status +:+ String TAB rest)) "")
    as [Heq | _]; [contradiction |].
  rewrite (split1_field TAB status rest Hstatus).
  apply (parse_name_status_acc after [(status, rest)]).
Qed.

Lemma name_status_line_parsed_witness :
  parse_name_status
    ["M" +:+ String TAB "a.py";
     "R100" +:+ String TAB ("old.py" +:+ String TAB "new.py")] [] =
  [("M", "a.py"); ("R100", "old.py" +:+ String TAB "new.py")].
Proof.
  apply (name_status_line_parsed ["M" +:+ String TAB "a.py"] [] "R100"
           ("old.py" +:+ String TAB "new.py")).
  - reflexivity.
  - discriminate.
Defined.

(** X14: a blank line, and a line without any tab, give no change and leave
    the changes of the other lines as they are. *)
Theorem name_status_line_dropped (before after : list string)
  (line : string) :
  PyStr.strip line = "" \/ PyStr.contains TAB line = false ->
  parse_name_status (before ++ line :: after) [] =
  parse_name_status before [] ++ parse_name_status after [].
Proof.
  intros Hline. rewrite parse_name_status_app. f_equal. simpl.
  destruct Hline as [-> | Hline]; [reflexivity |].
  rewrite (split1_whole TAB line Hline).
  destruct (String.eqb (PyStr.strip line) ""); reflexivity.
Qed.

Lemma name_status_line_dropped_witness :
  parse_name_status ["M" +:+ String TAB "a.py"; "garbage"] [] =
  [("M", "a.py")].
Proof.
  exact (name_status_line_dropped ["M" +:+ String TAB "a.py"] [] "garbage"
           (or_intror eq_refl)).
Defined.

(** ** More on the pattern filter *)

Lemma any_match_true (w : World) (filepath : string) (inc : list string) :
  any_match w filepath inc = inr true <->
  exists before pattern after,
    inc = before ++ pattern :: after /\
    (forall earlier, In earlier before ->
       path_match w filepath earlier = inr false) /\
    path_match w filepath pattern = inr true.
Proof.
  induction inc as [| first rest IH]; cbn [any_match].
  - split; [discriminate |].
    intros (before & pattern & after & Heq & _). destruct before; discriminate.
  - destruct (path_match w filepath first) as [e | [|]] eqn:Hfirst.
    + split; [discriminate |].
      intros ([| earlier before] & pattern & after & Heq & Hbefore & Hmatch);
        simpl in Heq; injection Heq as -> _.
      * congruence.
      * specialize (Hbefore earlier (or_introl eq_refl)). congruence.
    + split; [| reflexivity]. intros _.
      exists [], first, rest. split; [reflexivity |].
      split; [intros earlier [] | exact Hfirst].
    + rewrite IH. split.
      * intros (before & pattern & after & -> & Hbefore & Hmatch).
        exists (first :: before), pattern, after. split; [reflexivity |].
        split; [| exact Hmatch].
        intros earlier [<- | Hin]; [exact Hfirst | exact (Hbefore _ Hin)].
      * intros ([| earlier before] & pattern & after & Heq & Hbefore & Hmatch);
          simpl in Heq; injection Heq as -> ->.
        -- congruence.
        -- exists before, pattern, after. split; [reflexivity |].
           split; [| exact Hmatch].
           intros q Hq. apply Hbefore. right. exact Hq.
Qed.

(** X15: a path passes the filter exactly when [Path.match] answers False
    on every exclude pattern and, if there are include patterns at all, it
    answers True on one of them after answering False on those before it;
    with no include pattern every path that no exclude pattern matches
    passes. *)
Theorem should_include_file_iff (w : World) (filepath : string)
  (inc exc : list string) :
  should_include_file w filepath inc exc = inr true <->
  (forall pattern,
     In pattern exc -> path_match w filepath pattern = inr false) /\
  (inc = [] \/
   exists before pattern after,
     inc = before ++ pattern :: after /\
     (forall earlier, In earlier before ->
        path_match w filepath earlier = inr false) /\
     path_match w filepath pattern = inr true).
Proof.
  induction exc as [| first rest IH]; cbn [should_include_file].
  - split.
    + intros Hinc. split; [intros pattern [] |].
      destruct inc as [| p ps]; [left; reflexivity | right].
      apply any_match_true. exact Hinc.
    + intros [_ [-> | Hinc]]; [reflexivity |].
      destruct inc as [| p ps].
      * destruct Hinc as ([| ? ?] & ? & ? & Heq & _); discriminate.
      * apply any_match_true. exact Hinc.
  - destruct (path_match w filepath first) as [e | [|]] eqn:Hfirst.
    + split; [discriminate |]. intros [Hexc _].
      specialize (Hexc first (or_introl eq_refl)). congruence.
    + split; [discriminate |]. intros [Hexc _].
      specialize (Hexc first (or_introl eq_refl)). congruence.
    + rewrite IH. split.
      * intros [Hexc Hinc]. split; [| exact Hinc].
        intros pattern [<- | Hin]; [exact Hfirst | exact (Hexc _ Hin)].
      * intros [Hexc Hinc]. split; [| exact Hinc].
        intros pattern Hin. apply Hexc. right. exact Hin.
Qed.

(** ** More on the per-file loop *)

Section FileLoopMore.

Context (w : World) (cfg : Config) (repo_root : string).

Lemma report_loop_appends (changes : list (string * string))
  (seen : gset string) :
  exists block trace,
    forall output,
      report_loop w cfg repo_root changes seen output =
      (output ++ block, trace).
Proof.
  revert seen. induction changes as [| [status filepath] rest IH];
    intros seen.
  - exists [], []. intros output. simpl. rewrite app_nil_r. reflexivity.
  - simpl. destruct (decide (filepath ∈ seen)); [apply IH |].
    destruct (report_file_appends w cfg repo_root status filepath)
      as (block1 & trace1 & Hfile).
    destruct (IH (seen ∪ {[filepath]})) as (block2 & trace2 & Hrest).
    exists (block1 ++ block2), (trace1 ++ trace2). intros output.
    unfold bind. rewrite Hfile. cbn [fst snd]. rewrite Hrest. cbn [fst snd].
    rewrite app_assoc. reflexivity.
Qed.

(** X16: the loop only appends: the lines already in the output stay where
    they are, and neither the lines added nor the commands run depend on
    them. *)
Theorem report_loop_only_appends (changes : list (string * string))
  (seen : gset string) :
  exists block : list string,
    (forall output,
       fst (report_loop w cfg repo_root changes seen output) =
       output ++ block) /\
    (forall output1 output2,
       snd (report_loop w cfg repo_root changes seen output1) =
       snd (report_loop w cfg repo_root changes seen output2)).
Proof.
  destruct (report_loop_appends changes seen) as (block & trace & Hloop).
  exists block. split.
  - intros output. rewrite Hloop. reflexivity.
  - intros output1 output2. rewrite !Hloop. reflexivity.
Qed.

Lemma is_binary_file_quiet (p : string) :
  List.filter is_stdout (snd (is_binary_file w p)) = [].
Proof.
  unfold is_binary_file, bind, emit, ret. cbn [fst snd].
  destruct (read_bytes w p) as [chunk |]; [| reflexivity].
  destruct (PyStr.contains "000" chunk); reflexivity.
Qed.

Lemma report_file_stdout (status filepath : string) (output : list string) :
  List.filter is_stdout
    (snd (report_file w cfg repo_root status filepath output)) =
  [Stdout (path_join w repo_root filepath +:+ NL)].
Proof.
  unfold report_file, and_then, fs_exists, fs_is_dir, bind, emit, ret.
  cbn [fst snd].
  assert (Hq : forall p,
    List.filter is_stdout
      (snd (if include_stats cfg then get_file_stats w p else ("", []))) = []).
  { intros p. destruct (include_stats cfg); [| reflexivity].
    rewrite get_file_stats_trace. reflexivity. }
  assert (Htext : forall out,
    List.filter is_stdout
      (snd (report_text_file w cfg (path_join w repo_root filepath) status
              out)) = []).
  { intros out. rewrite report_text_file_trace, List.filter_app.
    unfold stats_of. unfold ret in Hq. rewrite Hq. reflexivity. }
  destruct (path_exists w (path_join w repo_root filepath));
    cbn [negb fst snd app].
  - destruct (path_is_dir w (path_join w repo_root filepath));
      cbn [fst snd app]; [reflexivity |].
    destruct (fst (is_binary_file w (path_join w repo_root filepath)));
      cbn [fst snd app List.filter is_stdout];
      rewrite ?app_nil_r, ?List.filter_app, ?is_binary_file_quiet.
    + f_equal. apply Hq.
    + f_equal. apply Htext.
  - destruct (PyStr.contains "D" status);
      cbn [negb fst snd app List.filter is_stdout]; [| reflexivity].
    f_equal. apply Htext.
Qed.

Lemma report_loop_stdout (changes : list (string * string))
  (seen : gset string) (output : list string) :
  List.filter is_stdout
    (snd (report_loop w cfg repo_root changes seen output)) =
  map (fun change => Stdout (path_join w repo_root (snd change) +:+ NL))
    (first_occurrences seen changes).
Proof.
  revert output seen.
  induction changes as [| [status filepath] rest IH]; intros output seen.
  - reflexivity.
  - simpl. destruct (decide (filepath ∈ seen)); [apply IH |].
    unfold bind. cbn [fst snd map].
    rewrite List.filter_app, report_file_stdout, IH. reflexivity.
Qed.

(** X17: what the loop prints on standard output is the absolute path of
    each file it works on, one line for each first occurrence of a path,
    in the order of the listing. *)
Theorem report_loop_prints_paths (changes : list (string * string))
  (output : list string) :
  List.filter is_stdout
    (snd (report_loop w cfg repo_root changes ∅ output)) =
  map (fun change => Stdout (path_join w repo_root (snd change) +:+ NL))
    (first_occurrences ∅ changes).
Proof. apply report_loop_stdout. Qed.

End FileLoopMore.

(** ** More on the whole report *)

Section WholeReport.

Context (w : World) (cfg : Config).

(** X18: inside a repository with nothing staged, the report is the title
    followed by "No staged changes found."; beyond the two listings nothing
    is run. *)
Theorem no_staged_changes (repo_root : string) :
  fst (get_repo_root w) = Some repo_root ->
  fst (get_staged_changes w) = [] ->
  get_staged_diff w cfg =
  (inr (report_title +:+ NL +:+ "No staged changes found."),
   Subprocess rev_parse_argv :: snd (get_staged_changes w)).
Proof.
  intros Hroot Hstaged. unfold get_staged_diff, bind.
  rewrite Hroot, get_repo_root_trace. cbn [fst snd]. rewrite Hstaged.
  cbn [ret fst snd]. rewrite app_nil_r. reflexivity.
Qed.

(** X19: when the listing of the staged changes fails, the failure is
    written on standard error and the run goes on as with nothing staged:
    the report says "No staged changes found.". *)
Theorem staged_listing_failure (root_output e : string) :
  check_output w rev_parse_argv = inr root_output ->
  check_output w name_status_argv = inl e ->
  get_staged_diff w cfg =
  (inr (report_title +:+ NL +:+ "No staged changes found."),
   [Subprocess rev_parse_argv; Subprocess name_status_argv;
    Stderr ("Error: Not in a git repository or git command failed: " +:+ e
            +:+ NL)]).
Proof.
  intros Hroot Hlist.
  unfold get_staged_diff, get_repo_root, get_staged_changes, bind, emit, ret.
  cbn [fst snd]. rewrite Hroot. cbn [fst snd]. rewrite Hlist. reflexivity.
Qed.

(** X20: when changes are staged but the filter keeps none of them, the
    report is the title followed by "No files match the specified
    patterns."; no file is looked at. *)
Theorem no_file_matches (repo_root : string) :
  fst (get_repo_root w) = Some repo_root ->
  fst (get_staged_changes w) <> [] ->
  filtered_changes_of w cfg = inr [] ->
  get_staged_diff w cfg =
  (inr (report_title +:+ NL +:+ "No files match the specified patterns."),
   Subprocess rev_parse_argv :: snd (get_staged_changes w)).
Proof.
  intros Hroot Hstaged Hfiltered. unfold get_staged_diff, bind.
  rewrite Hroot, get_repo_root_trace. cbn [fst snd].
  fold (filtered_changes_of w cfg). rewrite Hfiltered.
  destruct (fst (get_staged_changes w)); [congruence |].
  cbn [ret fst snd]. rewrite app_nil_r. reflexivity.
Qed.

Lemma join_title_not_error (lines : list string) :
  PyStr.join NL (report_title :: lines) <> "Error: Not in a git repository.".
Proof. destruct lines; discriminate. Qed.

Lemma join_title_not_inr_error (lines : list string) :
  @inr string string (PyStr.join NL (report_title :: lines)) <>
  inr "Error: Not in a git repository.".
Proof.
  intros Heq. injection Heq as Heq. exact (join_title_not_error lines Heq).
Qed.

(** X21: the error text is the report exactly when the lookup of the
    repository root fails; a lookup that succeeds, even with an empty
    answer, never leads to it. *)
Theorem error_report_iff :
  fst (get_staged_diff w cfg) = inr "Error: Not in a git repository." <->
  exists e, check_output w rev_parse_argv = inl e.
Proof.
  split.
  - intros Hreport.
    destruct (check_output w rev_parse_argv) as [e | out] eqn:Hroot;
      [eauto | exfalso].
    revert Hreport. unfold get_staged_diff, bind.
    assert (Hsome : fst (get_repo_root w) = Some (PyStr.strip out)).
    { unfold get_repo_root, bind. cbn [fst snd emit]. rewrite Hroot.
      reflexivity. }
    rewrite Hsome. cbn [fst snd]. fold (filtered_changes_of w cfg).
    destruct (fst (get_staged_changes w)) as [| change changes];
      [apply join_title_not_inr_error |].
    destruct (filtered_changes_of w cfg) as [e | [| entry entries]];
      [discriminate | apply join_title_not_inr_error |].
    cbn [ret fst snd].
    match goal with
    | |- context [report_loop w cfg ?r ?l ?s ?o] =>
        destruct (report_loop_appends w cfg r l s) as (block & trace & ->)
    end.
    cbn [fst]. destruct (group_by_type cfg); apply join_title_not_inr_error.
  - intros [e Hroot]. unfold get_staged_diff, get_repo_root, bind, emit, ret.
    cbn [fst snd]. rewrite Hroot. reflexivity.
Qed.

End WholeReport.

(** ** Grouping by extension *)

Section Grouping.

Context (w : World).

Lemma group_step (by_type : gmap string (list (string * string)))
  (ext : string) (change : string * string) :
  <[ext := default [] (match by_type !! ext with
                       | None => <[ext := []]> by_type
                       | Some _ => by_type
                       end !! ext) ++ [change]]>
    (match by_type !! ext with
     | None => <[ext := []]> by_type
     | Some _ => by_type
     end) =
  <[ext := default [] (by_type !! ext) ++ [change]]> by_type.
Proof.
  destruct (by_type !! ext) as [entries |] eqn:Hlookup.
  - rewrite Hlookup. reflexivity.
  - rewrite lookup_insert_eq, insert_insert_eq. reflexivity.
Qed.

Lemma group_fold_lookup (changes : list (string * string))
  (by_type : gmap string (list (string * string))) (ext : string) :
  fold_left
    (fun by_type '(status, filepath) =>
       let ext := extension_of w filepath in
       let by_type :=
         match by_type !! ext with
         | None => <[ext := []]> by_type
         | Some _ => by_type
         end in
       <[ext := default [] (by_type !! ext) ++ [(status, filepath)]]> by_type)
    changes by_type !! ext =
  match with_extension w ext changes with
  | [] => by_type !! ext
  | entry :: entries =>
      Some (default [] (by_type !! ext) ++ entry :: entries)
  end.
Proof.
  revert by_type.
  induction changes as [| [status filepath] rest IH]; intros by_type.
  - reflexivity.
  - cbn [fold_left]. cbv zeta. rewrite group_step, IH.
    unfold with_extension. cbn [List.filter snd].
    fold (with_extension w ext rest).
    destruct (String.eqb_spec (extension_of w filepath) ext) as [-> | Hne].
    + rewrite lookup_insert_eq. unfold default, from_option, id.
      destruct (with_extension w ext rest) as [| entry entries];
        [reflexivity |].
      rewrite <- app_assoc. reflexivity.
    + rewrite lookup_insert_ne by exact Hne. reflexivity.
Qed.

Lemma group_lookup (changes : list (string * string)) (ext : string) :
  group_by_extension w changes !! ext =
  match with_extension w ext changes with
  | [] => None
  | entry :: entries => Some (entry :: entries)
  end.
Proof.
  unfold group_by_extension. rewrite group_fold_lookup, lookup_empty.
  reflexivity.
Qed.

(** X22: after the grouping loop, the bucket of an extension holds the
    changes of that extension, in the order of the listing; an extension
    that no change has is not a key, and no bucket is empty. *)
Theorem group_by_extension_lookup (changes : list (string * string))
  (ext : string) :
  group_by_extension w changes !! ext =
    match with_extension w ext changes with
    | [] => None
    | entry :: entries => Some (entry :: entries)
    end /\
  group_by_extension w changes !! ext <> Some [].
Proof.
  rewrite group_lookup. split; [reflexivity |].
  destruct (with_extension w ext changes); discriminate.
Qed.

Lemma with_extension_In (changes : list (string * string)) (ext : string) :
  with_extension w ext changes <> [] <->
  exists status filepath,
    In (status, filepath) changes /\ extension_of w filepath = ext.
Proof.
  unfold with_extension. split.
  - destruct (List.filter _ changes) as [| [status filepath] entries]
      eqn:Hfilter; [congruence |]. intros _.
    assert (Hin : In (status, filepath)
                    (List.filter
                       (fun change =>
                          String.eqb (extension_of w (snd change)) ext)
                       changes)) by (rewrite Hfilter; left; reflexivity).
    apply List.filter_In in Hin as [Hin Hext].
    exists status, filepath. split; [exact Hin |].
    apply String.eqb_eq. exact Hext.
  - intros (status & filepath & Hin & Hext) Hempty.
    assert (Hmem : In (status, filepath)
                     (List.filter
                        (fun change =>
                           String.eqb (extension_of w (snd change)) ext)
                        changes)).
    { apply List.filter_In. split; [exact Hin |].
      apply String.eqb_eq. exact Hext. }
    rewrite Hempty in Hmem. destruct Hmem.
Qed.

Lemma Sorted_weaken {A : Type} (R1 R2 : A -> A -> Prop) (l : list A) :
  (forall x y, R1 x y -> R2 x y) -> Sorted R1 l -> Sorted R2 l.
Proof.
  intros Himpl. induction 1 as [| x l _ IH Hhd]; constructor.
  - exact IH.
  - destruct Hhd; constructor. apply Himpl. assumption.
Qed.

#[local] Instance leb_total : Total (fun a b : string => String.leb a b).
Proof.
  intros a b. destruct (String.leb_total a b) as [H | H];
    [left | right]; rewrite H; exact I.
Qed.

(** X23: the extensions listed in the "File types" line are those of the
    filtered changes, each of them once, in ascending order. *)
Theorem sorted_keys_spec (changes : list (string * string)) :
  let keys := sorted_keys (group_by_extension w changes) in
  Sorted (fun a b => String.leb a b = true) keys /\
  NoDup keys /\
  forall ext,
    In ext keys <->
    exists status filepath,
      In (status, filepath) changes /\ extension_of w filepath = ext.
Proof.
  intros keys. unfold keys, sorted_keys. split; [| split].
  - apply (Sorted_weaken (fun a b : string => String.leb a b)).
    + intros x y Hxy. apply Is_true_true. exact Hxy.
    + apply (Sorted_merge_sort _).
  - rewrite merge_sort_Permutation. apply NoDup_elements.
  - intros ext. rewrite <- with_extension_In.
    rewrite <- list_elem_of_In, merge_sort_Permutation.
    rewrite elem_of_elements, elem_of_dom, group_lookup.
    destruct (with_extension w ext changes).
    + split; [intros [? ?]; discriminate | congruence].
    + split; [discriminate | eauto].
Qed.

End Grouping.

(** ** The entry point *)

Section EntryPoint.

Context (w : World) (args : Args).

(** X24: outside a repository the run prints the error text on standard
    output, as it prints a report, and writes nothing on standard error;
    the lookup of the root is the only command run. *)
Theorem main_outside_repository (e : string) :
  check_output w rev_parse_argv = inl e ->
  main w args =
  (Returned, [Subprocess rev_parse_argv;
              Stdout ("Error: Not in a git repository." +:+ NL)]).
Proof.
  intros Hroot.
  unfold main, get_staged_diff, get_repo_root, bind, emit, ret.
  cbn [fst snd]. rewrite Hroot. reflexivity.
Qed.



(** X26: a pattern that [Path.match] refuses, met by the filter, ends the
    run: after the two listings no file is looked at and no report is
    printed; the text of the exception is written on standard error after
    "Error: " and the exit code is 1. *)
Theorem malformed_pattern_aborts (repo_root e : string) :
  fst (get_repo_root w) = Some repo_root ->
  filtered_changes_of w (config_of args) = inl e ->
  get_staged_diff w (config_of args) =
    (inl e, Subprocess rev_parse_argv :: snd (get_staged_changes w)) /\
  main w args =
    (Exited 1,
     Subprocess rev_parse_argv :: snd (get_staged_changes w)
     ++ [Stderr ("Error: " +:+ e +:+ NL)]).
Proof.
  intros Hroot Hfilter.
  assert (Hrun : get_staged_diff w (config_of args) =
                 (inl e, Subprocess rev_parse_argv
                         :: snd (get_staged_changes w))).
  { unfold get_staged_diff, bind.
    rewrite Hroot, get_repo_root_trace. cbn [fst snd].
    unfold filtered_changes_of in Hfilter.
    destruct (fst (get_staged_changes w)) as [| change changes];
      [discriminate Hfilter |].
    rewrite Hfilter. cbn [ret fst snd]. rewrite app_nil_r. reflexivity. }
  split; [exact Hrun |].
  unfold main, bind, emit, ret.
  change (get_staged_diff w _) with (get_staged_diff w (config_of args)).
  rewrite Hrun. cbn [fst snd]. rewrite app_nil_r. reflexivity.
Qed.

End EntryPoint.

(** ** Runs in the scripted worlds *)

Lemma missing_diff_is_announced_witness :
  fst (get_file_diff demo_world "/r/gone.txt" 100 3) = [].
Proof.
  apply (missing_diff_is_announced demo_world demo_config "/r/gone.txt" "D"
           []).
  left. eexists. reflexivity.
Defined.

Lemma empty_diff_negative_budget_witness :
  fst (get_file_diff (scripted_world assets_script) "/r/empty.txt" (-1) 3) =
  [truncation_marker (-1)].
Proof.
  apply (empty_diff_negative_budget (scripted_world assets_script)
           negative_config "/r/empty.txt").
  - reflexivity.
  - reflexivity.
Defined.

Lemma text_block_size_witness :
  (Z.of_nat
     (length (fst (report_text_file demo_world demo_config "/r/a.py" "M" [])))
   <= 0 + 100 + 3)%Z.
Proof.
  apply (text_block_size demo_world demo_config "/r/a.py" "M" []).
  simpl. lia.
Defined.

Lemma missing_file_reported_witness :
  report_file demo_world demo_config "/r" "M" "gone.txt" [] =
  ([file_not_found_entry "gone.txt" "M"],
   [Stdout ("/r/gone.txt" +:+ NL); FsExists "/r/gone.txt"]).
Proof.
  apply (missing_file_reported demo_world demo_config "/r" "M" "gone.txt" []);
    reflexivity.
Defined.

Lemma directory_reported_witness :
  fst (report_file (scripted_world assets_script) demo_config "/r" "A" "docs"
         []) =
  [NL +:+ "Directory Added: docs"].
Proof.
  rewrite (directory_reported (scripted_world assets_script) demo_config "/r"
             "A" "docs" [] eq_refl eq_refl).
  reflexivity.
Defined.

Lemma binary_file_reported_witness :
  fst (report_file (scripted_world assets_script) demo_config "/r" "A"
         "logo.png" []) =
  [NL +:+ "Binary file Added: logo.png "].
Proof.
  destruct (binary_file_reported (scripted_world assets_script) demo_config
              "/r" "A" "logo.png" [] eq_refl eq_refl eq_refl) as [Hout _].
  rewrite Hout. reflexivity.
Defined.

Lemma is_binary_file_spec_witness :
  is_binary_file (scripted_world assets_script) "/r/logo.png" =
  (true, [FsOpenBytes "/r/logo.png"]).
Proof.
  destruct (is_binary_file_spec (scripted_world assets_script) "/r/logo.png")
    as (_ & _ & Hnull).
  apply (Hnull (String "000" "PNG")); reflexivity.
Defined.

Lemma get_file_stats_counts_witness :
  fst (get_file_stats demo_world "/r/a.py") = "(+1/-1)".
Proof.
  apply (get_file_stats_counts demo_world "/r/a.py" "1" "1" "a.py");
    try reflexivity; discriminate.
Defined.

Lemma get_file_stats_nothing_witness :
  get_file_stats demo_world "/r/gone.txt" =
  ("", [Subprocess (numstat_argv "/r/gone.txt")]).
Proof.
  apply (get_file_stats_nothing demo_world "/r/gone.txt").
  left. eexists. reflexivity.
Defined.

Lemma no_staged_changes_witness :
  fst (get_staged_diff
         (scripted_world [(rev_parse_argv, "/r" +:+ NL);
                          (name_status_argv, "")]) demo_config) =
  inr (report_title +:+ NL +:+ "No staged changes found.").
Proof.
  rewrite (no_staged_changes
             (scripted_world [(rev_parse_argv, "/r" +:+ NL);
                              (name_status_argv, "")]) demo_config "/r"
             eq_refl eq_refl).
  reflexivity.
Defined.

Lemma staged_listing_failure_witness :
  fst (get_staged_diff (scripted_world [(rev_parse_argv, "/r" +:+ NL)])
         demo_config) =
  inr (report_title +:+ NL +:+ "No staged changes found.").
Proof.
  rewrite (staged_listing_failure
             (scripted_world [(rev_parse_argv, "/r" +:+ NL)]) demo_config
             ("/r" +:+ NL) "Command returned non-zero exit status 128."
             eq_refl eq_refl).
  reflexivity.
Defined.

Lemma no_file_matches_witness :
  fst (get_staged_diff
         (scripted_world [(rev_parse_argv, "/r" +:+ NL);
                          (name_status_argv,
                           "A" +:+ String TAB "x.pyc" +:+ NL)]) demo_config) =
  inr (report_title +:+ NL +:+ "No files match the specified patterns.").
Proof.
  rewrite (no_file_matches
             (scripted_world [(rev_parse_argv, "/r" +:+ NL);
                              (name_status_argv,
                               "A" +:+ String TAB "x.pyc" +:+ NL)])
             demo_config "/r" eq_refl).
  - reflexivity.
  - discriminate.
  - reflexivity.
Defined.

Lemma main_outside_repository_witness :
  main no_repo_world demo_args =
  (Returned, [Subprocess rev_parse_argv;
              Stdout ("Error: Not in a git repository." +:+ NL)]).
Proof.
  apply (main_outside_repository no_repo_world demo_args
           "Command returned non-zero exit status 128.").
  reflexivity.
Defined.


Lemma malformed_pattern_aborts_witness :
  main (scripted_world [(rev_parse_argv, "/r" +:+ NL);
                        (name_status_argv, "A" +:+ String TAB "x.py" +:+ NL)])
    empty_exclude_args =
  (Exited 1,
   [Subprocess rev_parse_argv; Subprocess name_status_argv;
    Stderr ("Error: empty pattern" +:+ NL)]).
Proof.
  apply (malformed_pattern_aborts
           (scripted_world [(rev_parse_argv, "/r" +:+ NL);
                            (name_status_argv,
                             "A" +:+ String TAB "x.py" +:+ NL)])
           empty_exclude_args "/r" "empty pattern");
    reflexivity.
Defined.
